(** * niltalk: message cache queries, chat-history windows, auth middleware

    A shallow embedding of the Go sources of niltalk:

    - [GoStrings], [GoTime]: the parts of Go's [strings] and [time]
      packages that [handleChatHistory] calls (Split, Parse for the two
      layouts of the handler, Format for the date layout, Date, AddDate,
      Truncate, the clock accessors).
    - [Store]: [store.Message] and [store.DateFilter].
    - [Mongo]: the aggregation stages the MongoDB store builds, with the
      meaning MongoDB gives them.
    - [MongoVariadic], [MongoSingle], [MongoPlain]: the three versions of
      [GetMessageCache] found in the sources.
    - [Handlers]: [wrap] and [handleChatHistory].
    - [Room]: the broadcast loop of a room.
    - [MongoWrite]: [AddMessageCache].
    - [RoomHandlers]: [handleLogin], [handleLogout], [handleWS] and
      [handleCreateRoom]. *)

From Stdlib Require Import ZArith Arith List String Ascii Bool Lia.
From Stdlib Require Import Permutation Sorted.
Import ListNotations.

Open Scope string_scope.
Open Scope Z_scope.

(** ** Strings *)

Module GoStrings.

(** [strings.Split(s, sep)] for a separator of one byte: the pieces
    between the separators, at least one piece. *)
Fixpoint Split (sep : ascii) (s : string) : list string :=
  match s with
  | EmptyString => [EmptyString]
  | String c rest =>
      if Ascii.eqb c sep then EmptyString :: Split sep rest
      else match Split sep rest with
           | [] => [String c EmptyString]
           | piece :: pieces => String c piece :: pieces
           end
  end.

Definition code (c : ascii) : Z := Z.of_N (N_of_ascii c).

(** ['0' <= c && c <= '9'] *)
Definition isDigitChar (c : ascii) : bool :=
  (48 <=? code c) && (code c <=? 57).

(** [int(c - '0')] *)
Definition digitVal (c : ascii) : Z := code c - 48.

(** [byte('0' + n)] *)
Definition digitChar (n : Z) : ascii := ascii_of_N (Z.to_N (48 + n)).

(** The loop of [appendInt] that assembles the decimal digits of [u];
    the buffer of the source has 20 bytes. *)
Fixpoint decimal (fuel : nat) (u : Z) (acc : string) : string :=
  match fuel with
  | O => acc
  | S fuel' =>
      let acc' := String (digitChar (u mod 10)) acc in
      if u <? 10 then acc' else decimal fuel' (u / 10) acc'
  end.

Fixpoint zeros (n : nat) (s : string) : string :=
  match n with
  | O => s
  | S n' => String "0"%char (zeros n' s)
  end.

(** [appendInt(b, x, width)]: the decimal form of [x], padded with zeros
    to [width] digits, after a minus sign when [x] is negative. *)
Definition appendInt (x : Z) (width : nat) : string :=
  let u := Z.abs x in
  let ds := decimal 20 u EmptyString in
  let padded := zeros (width - String.length ds) ds in
  if x <? 0 then String "-"%char padded else padded.

End GoStrings.

(** ** Time *)

Module GoTime.
Import GoStrings.

(** A [time.Time] is modelled by its instant: the number of nanoseconds
    since January 1, year 1, 00:00:00 UTC, which is the zero value of
    [time.Time].  The location a Go value carries only matters to the
    calendar accessors, which take it as an argument here. *)
Definition Time := Z.

Definition Duration := Z.

Definition Nanosecond : Duration := 1.
Definition Second : Duration := 1000000000.
Definition Minute : Duration := 60 * Second.
Definition Hour : Duration := 60 * Minute.

Definition secondsPerDay : Z := 86400.

Definition IsZero (t : Time) : bool := t =? 0.
Definition Before (t u : Time) : bool := t <? u.
Definition After (t u : Time) : bool := t >? u.
Definition Add (t : Time) (d : Duration) : Time := t + d.

(** [t.Truncate(d)]: [t] rounded down to a multiple of [d] since the
    zero time. *)
Definition Truncate (t : Time) (d : Duration) : Time :=
  if d <=? 0 then t else t - t mod d.

(** Seconds since the zero time, and the nanoseconds within the second. *)
Definition sec (t : Time) : Z := t / Second.
Definition nsec (t : Time) : Z := t mod Second.

(** A [*time.Location]: its [lookup], from an instant (in seconds since
    the zero time) to the offset in force and the bounds, in seconds, of
    the period it is in force. *)
Definition Location := Z -> Z * Z * Z.

Definition alpha : Z := - 2 ^ 63.
Definition omega : Z := 2 ^ 63 - 1.

Definition FixedZone (offset : Z) : Location := fun _ => (offset, alpha, omega).
Definition UTC : Location := FixedZone 0.

Definition offsetAt (l : Location) (s : Z) : Z := fst (fst (l s)).

(** [t.abs()] in location [l]: seconds of the wall clock since the zero
    time. *)
Definition abs (l : Location) (t : Time) : Z := sec t + offsetAt l (sec t).

Definition isLeap (year : Z) : bool :=
  (Z.rem year 4 =? 0) && (negb (Z.rem year 100 =? 0) || (Z.rem year 400 =? 0)).

(** [daysBefore[m]]: days in a non-leap year before month [m+1]. *)
Definition daysBefore (m : Z) : Z :=
  nth (Z.to_nat m) [0; 31; 59; 90; 120; 151; 181; 212; 243; 273; 304; 334; 365] 0.

Definition daysIn (m year : Z) : Z :=
  if (m =? 2) && isLeap year then 29
  else daysBefore m - daysBefore (m - 1).

Definition daysPer400Years : Z := 365 * 400 + 97.
Definition daysPer100Years : Z := 365 * 100 + 24.
Definition daysPer4Years : Z := 365 * 4 + 1.

(** [daysSinceEpoch(year)], counted from year 1 instead of the absolute
    zero year of the source; the two differ by a whole number of
    400-year cycles. *)
Definition daysSinceEpoch (year : Z) : Z :=
  let y := year - 1 in
  let n := y / 400 in
  let y := y - 400 * n in
  let d := daysPer400Years * n in
  let n := y / 100 in
  let y := y - 100 * n in
  let d := d + daysPer100Years * n in
  let n := y / 4 in
  let y := y - 4 * n in
  let d := d + daysPer4Years * n in
  let n := y in
  d + 365 * n.

(** [norm(hi, lo, base)] *)
Definition norm (hi lo base : Z) : Z * Z :=
  let '(hi, lo) :=
    if lo <? 0 then
      let n := (- lo - 1) / base + 1 in (hi - n, lo + n * base)
    else (hi, lo) in
  if lo >=? base then
    let n := lo / base in (hi + n, lo - n * base)
  else (hi, lo).

(** [time.Date(year, month, day, hour, min, sec, nsec, loc)] *)
Definition Date (year month day hour min sec nsec : Z) (loc : Location) : Time :=
  let m := month - 1 in
  let '(year, m) := norm year m 12 in
  let month := m + 1 in
  let '(sec, nsec) := norm sec nsec 1000000000 in
  let '(min, sec) := norm min sec 60 in
  let '(hour, min) := norm hour min 60 in
  let '(day, hour) := norm day hour 24 in
  let d := daysSinceEpoch year in
  let d := d + daysBefore (month - 1) in
  let d := if isLeap year && (month >=? 3) then d + 1 else d in
  let d := d + (day - 1) in
  let abs := d * secondsPerDay in
  let abs := abs + (hour * 3600 + min * 60 + sec) in
  let unix := abs in
  let unix :=
    let '(offset, start, stop) := loc unix in
    if offset =? 0 then unix
    else
      let utc := unix - offset in
      let offset :=
        if (utc <? start) || (utc >=? stop) then offsetAt loc utc else offset in
      unix - offset in
  unix * Second + nsec.

(** [absDate(abs, false)] on the day number [abs / secondsPerDay]: the
    year and the day of the year, from 0. *)
Definition yearDay (days : Z) : Z * Z :=
  let d := days in
  let n := d / daysPer400Years in
  let y := 400 * n in
  let d := d - daysPer400Years * n in
  let n := d / daysPer100Years in
  let n := n - Z.shiftr n 2 in
  let y := y + 100 * n in
  let d := d - daysPer100Years * n in
  let n := d / daysPer4Years in
  let y := y + 4 * n in
  let d := d - daysPer4Years * n in
  let n := d / 365 in
  let n := n - Z.shiftr n 2 in
  let y := y + n in
  let d := d - 365 * n in
  (y + 1, d).

(** The rest of [absDate(abs, true)]: month and day of the month. *)
Definition monthDay (year day : Z) : Z * Z * Z :=
  if isLeap year && (day =? 31 + 29 - 1) then (year, 2, 29)
  else
    let day := if isLeap year && (day >? 31 + 29 - 1) then day - 1 else day in
    let month := day / 31 in
    let stop := daysBefore (month + 1) in
    let '(month, begin) :=
      if day >=? stop then (month + 1, stop) else (month, daysBefore month) in
    (year, month + 1, day - begin + 1).

Definition absDate (days : Z) : Z * Z * Z :=
  let '(year, yday) := yearDay days in monthDay year yday.

(** [t.In(loc).Date()] and [t.In(loc).Clock()] *)
Definition DateOf (l : Location) (t : Time) : Z * Z * Z :=
  absDate (abs l t / secondsPerDay).

Definition Year (l : Location) (t : Time) : Z := fst (fst (DateOf l t)).
Definition Month (l : Location) (t : Time) : Z := snd (fst (DateOf l t)).
Definition Day (l : Location) (t : Time) : Z := snd (DateOf l t).

Definition HourOf (l : Location) (t : Time) : Z :=
  (abs l t mod secondsPerDay) / 3600.
Definition MinuteOf (l : Location) (t : Time) : Z :=
  (abs l t mod 3600) / 60.
Definition SecondOf (l : Location) (t : Time) : Z :=
  abs l t mod 60.
Definition NanosecondOf (t : Time) : Z := nsec t.

(** [t.AddDate(years, months, days)] for a [t] whose location is [l]. *)
Definition AddDate (l : Location) (t : Time) (years months days : Z) : Time :=
  Date (Year l t + years) (Month l t + months) (Day l t + days)
       (HourOf l t) (MinuteOf l t) (SecondOf l t) (nsec t) l.

(** [t.Format("2006-01-02")] for a [t] whose location is [l]. *)
Definition FormatDate (l : Location) (t : Time) : string :=
  (appendInt (Year l t) 4 ++ "-" ++ appendInt (Month l t) 2 ++ "-"
     ++ appendInt (Day l t) 2)%string.

(** *** [time.Parse] for the two layouts of the handler

    The helpers follow the functions of the same name in
    [time/format.go] of the current Go release (the [go 1.13] of go.mod
    sets the language version, not the library); every failure of
    [Parse] is [None]. *)

Definition isDigit (s : string) (i : nat) : bool :=
  match String.get i s with
  | Some c => isDigitChar c
  | None => false
  end.

(** [leadingInt(s)]: the value of the leading digits and the rest.  The
    overflow test of the source is left out: the callers pass at most
    nine bytes. *)
Fixpoint leadingInt (s : string) (x : Z) : Z * string :=
  match s with
  | String c rest =>
      if isDigitChar c then leadingInt rest (x * 10 + digitVal c) else (x, s)
  | EmptyString => (x, s)
  end.

(** [atoi(s)] *)
Definition atoi (s : string) : option Z :=
  let '(neg, s) :=
    match s with
    | String c rest =>
        if Ascii.eqb c "-" then (true, rest)
        else if Ascii.eqb c "+" then (false, rest)
        else (false, s)
    | EmptyString => (false, s)
    end in
  let '(q, rem) := leadingInt s 0 in
  match rem with
  | EmptyString => Some (if neg then - q else q)
  | String _ _ => None
  end.

(** [getnum(s, fixed)] *)
Definition getnum (s : string) (fixed : bool) : option (Z * string) :=
  match s with
  | String c0 rest0 =>
      if isDigitChar c0 then
        match rest0 with
        | String c1 rest1 =>
            if isDigitChar c1
            then Some (digitVal c0 * 10 + digitVal c1, rest1)
            else if fixed then None else Some (digitVal c0, rest0)
        | EmptyString => if fixed then None else Some (digitVal c0, rest0)
        end
      else None
  | EmptyString => None
  end.

(** [cutspace(s)] *)
Fixpoint cutspace (s : string) : string :=
  match s with
  | String c rest => if Ascii.eqb c " " then cutspace rest else s
  | EmptyString => s
  end.

(** [skip(value, prefix)]: removes the prefix from the value, a run of
    spaces in the prefix standing for any run of spaces in the value.
    The recursion is on the prefix; after a space the rest of the run of
    spaces of the prefix is dropped with it. *)
Fixpoint skip (value pre : string) (inSpaces : bool) : option string :=
  match pre with
  | EmptyString => Some value
  | String p pre' =>
      if Ascii.eqb p " " then
        if inSpaces then skip value pre' true
        else
          match value with
          | String v _ =>
              if Ascii.eqb v " " then skip (cutspace value) pre' true
              else None
          | EmptyString => skip value pre' true
          end
      else
        match value with
        | String v value' =>
            if Ascii.eqb v p then skip value' pre' false else None
        | EmptyString => None
        end
  end.

Definition bind {A B : Type} (o : option A) (k : A -> option B) : option B :=
  match o with
  | Some a => k a
  | None => None
  end.

Notation "x <- o ;; k" := (bind o (fun x => k))
  (at level 61, o at next level, right associativity).
Notation "' p <- o ;; k" := (bind o (fun x => let 'p := x in k))
  (at level 61, p pattern, o at next level, right associativity).

Definition guard (b : bool) : option unit := if b then Some tt else None.

(** The chunks ["2006-01-02"], shared by the two layouts: year of four
    digits, month and day of two digits.  The day is checked against the
    month after the whole value is read, as in the source. *)
Definition parseYMD (value : string) : option (Z * Z * Z * string) :=
  _ <- guard (isDigit value 0 && (4 <=? String.length value)%nat) ;;
  year <- atoi (String.substring 0 4 value) ;;
  let value := String.substring 4 (String.length value - 4) value in
  value <- skip value "-" false ;;
  '(month, value) <- getnum value true ;;
  _ <- guard (negb ((month <=? 0) || (12 <? month))) ;;
  value <- skip value "-" false ;;
  '(day, value) <- getnum value true ;;
  Some (year, month, day, value).

Definition dayInRange (year month day : Z) : bool :=
  negb ((day <? 1) || (day >? daysIn month year)).

(** [time.Parse("2006-01-02", value)]: a value without a zone is in UTC. *)
Definition ParseDate (value : string) : option Time :=
  '(year, month, day, value) <- parseYMD value ;;
  _ <- guard (String.length value =? 0)%nat ;;
  _ <- guard (dayInRange year month day) ;;
  Some (Date year month day 0 0 0 0 UTC).

Definition commaOrPeriod (c : ascii) : bool :=
  Ascii.eqb c "." || Ascii.eqb c ",".

(** The digits at the head of [s] and what follows them. *)
Fixpoint spanDigits (s : string) : string * string :=
  match s with
  | String c rest =>
      if isDigitChar c then
        let '(ds, rest') := spanDigits rest in (String c ds, rest')
      else (EmptyString, s)
  | EmptyString => (EmptyString, s)
  end.

Fixpoint scale (n : nat) (ns : Z) : Z :=
  match n with
  | O => ns
  | S n' => scale n' (ns * 10)
  end.

(** The chunk [".999999"]: an optional fraction of a second.  All the
    digits that follow the separator are consumed and the first nine
    give the nanoseconds ([parseNanoseconds]). *)
Definition parseFrac (value : string) : option (Z * string) :=
  match value with
  | String c0 (String c1 _ as rest) =>
      if commaOrPeriod c0 && isDigitChar c1 then
        let '(ds, value') := spanDigits rest in
        let ds := String.substring 0 9 ds in
        ns <- atoi ds ;;
        Some (scale (9 - String.length ds) ns, value')
      else Some (0, value)
  | _ => Some (0, value)
  end.

(** The chunk ["-0700"]: a sign, two digits of hours, two of minutes. *)
Definition parseNumTZ (value : string) : option (Z * string) :=
  match value with
  | String sign (String h0 (String h1 (String m0 (String m1 value')))) =>
      '(hr, _) <- getnum (String h0 (String h1 EmptyString)) true ;;
      '(mm, _) <- getnum (String m0 (String m1 EmptyString)) true ;;
      _ <- guard (negb (hr >? 24)) ;;
      _ <- guard (negb (mm >? 60)) ;;
      let zoneOffset := (hr * 60 + mm) * 60 in
      if Ascii.eqb sign "+" then Some (zoneOffset, value')
      else if Ascii.eqb sign "-" then Some (- zoneOffset, value')
      else None
  | _ => None
  end.

(** The chunks [" 15:04:05.999999 -0700"] and the end of the value:
    hour of one or two digits, minute, second, fraction, zone offset. *)
Definition parseClock (value : string) : option (Z * Z * Z * Z * Z) :=
  value <- skip value " " false ;;
  '(hour, value) <- getnum value false ;;
  _ <- guard (negb ((hour <? 0) || (24 <=? hour))) ;;
  value <- skip value ":" false ;;
  '(min, value) <- getnum value true ;;
  _ <- guard (negb ((min <? 0) || (60 <=? min))) ;;
  value <- skip value ":" false ;;
  '(sec, value) <- getnum value true ;;
  _ <- guard (negb ((sec <? 0) || (60 <=? sec))) ;;
  '(nsec, value) <- parseFrac value ;;
  value <- skip value " " false ;;
  '(zoneOffset, value) <- parseNumTZ value ;;
  _ <- guard (String.length value =? 0)%nat ;;
  Some (hour, min, sec, nsec, zoneOffset).

(** [time.Parse("2006-01-02 15:04:05.999999 -0700", value)]: the instant
    and the zone offset of the value, which is the location of the
    result (a fixed zone; the server's local zone is taken to have no
    transitions). *)
Definition ParseDateTimeZone (value : string) : option (Time * Z) :=
  '(year, month, day, value) <- parseYMD value ;;
  '(hour, min, sec, nsec, zoneOffset) <- parseClock value ;;
  _ <- guard (dayInRange year month day) ;;
  Some (Date year month day hour min sec nsec UTC - zoneOffset * Second,
        zoneOffset).

End GoTime.

(** ** The store's data (store/store.go) *)

Module Store.

(** [store.Message]: [Time] is the instant of the record, which the
    MongoDB store uses as the document's [_id]. *)
Record Message : Type := mkMessage {
  Time : GoTime.Time;
  RoomID : string;
  Payload : list Byte.byte
}.

(** [store.DateFilter] *)
Record DateFilter : Type := mkDateFilter {
  Start : GoTime.Time;
  End : GoTime.Time
}.

Inductive result (A : Type) : Type :=
| Ok (a : A)
| Err (e : string).
Arguments Ok {A} a.
Arguments Err {A} e.

End Store.

(** ** Aggregation pipelines

    The store hands MongoDB a pipeline of [$match], [$sort] and [$limit]
    stages over the collection [message_cache].  The stages are data here
    and [Aggregate] gives them the meaning MongoDB gives them.  Instants
    are taken at the resolution of the stored [_id]. *)

Module Mongo.
Import Store.

(** The value of ["_id"] in a [$match]: a document with the keys
    ["$gte"] and ["$lte"], each present or not. *)
Record IdRange : Type := mkIdRange {
  gte : option GoTime.Time;
  lte : option GoTime.Time
}.

#[warnings="-register-all"]
Inductive Query : Type :=
| RoomIs (roomID : string)      (* {"room_id": roomID} *)
| IdIn (r : IdRange)            (* {"_id": r} *)
| And (qs : list Query)         (* {"$and": qs} *)
| Or (qs : list Query)          (* {"$or": qs} *)
| Fields (qs : list Query).     (* a document with the fields qs *)

Inductive Stage : Type :=
| Match (q : Query)             (* {"$match": q} *)
| Sort (dir : Z)                (* {"$sort": {"_id": dir}} *)
| Limit (n : Z).                (* {"$limit": n} *)

(** MongoDB rejects a [$and] or [$or] whose array is empty
    (["$and/$or/$nor must be a nonempty array"]). *)
Fixpoint wellFormed (q : Query) : bool :=
  match q with
  | RoomIs _ | IdIn _ => true
  | And qs | Or qs =>
      match qs with
      | [] => false
      | _ => forallb wellFormed qs
      end
  | Fields qs => forallb wellFormed qs
  end.

Definition inRange (r : IdRange) (t : GoTime.Time) : bool :=
  match gte r, lte r with
  | None, None => false     (* {"_id": {}}: equal to the empty document *)
  | Some lo, None => lo <=? t
  | None, Some hi => t <=? hi
  | Some lo, Some hi => (lo <=? t) && (t <=? hi)
  end.

Fixpoint matches (q : Query) (m : Message) : bool :=
  match q with
  | RoomIs roomID => String.eqb (RoomID m) roomID
  | IdIn r => inRange r (Time m)
  | And qs | Fields qs => forallb (fun q' => matches q' m) qs
  | Or qs => existsb (fun q' => matches q' m) qs
  end.

(** [$sort] on [_id]: ascending for 1, descending for -1. *)
Fixpoint insert (le : GoTime.Time -> GoTime.Time -> bool) (m : Message)
    (l : list Message) : list Message :=
  match l with
  | [] => [m]
  | x :: l' => if le (Time m) (Time x) then m :: l else x :: insert le m l'
  end.

Fixpoint sortBy (le : GoTime.Time -> GoTime.Time -> bool) (l : list Message)
    : list Message :=
  match l with
  | [] => []
  | x :: l' => insert le x (sortBy le l')
  end.

Definition stage (s : Stage) (docs : list Message) : result (list Message) :=
  match s with
  | Match q =>
      if wellFormed q then Ok (filter (matches q) docs)
      else Err "$and/$or/$nor must be a nonempty array"
  | Sort dir =>
      if dir =? 1 then Ok (sortBy Z.leb docs)
      else if dir =? -1 then Ok (sortBy Z.geb docs)
      else Err "$sort key ordering must be 1 (for ascending) or -1 (for descending)"
  | Limit n =>
      if 0 <? n then Ok (firstn (Z.to_nat n) docs)
      else Err "the limit must be positive"
  end.

(** [Collection.Aggregate(ctx, pipeline)] followed by the cursor loop. *)
Fixpoint Aggregate (docs : list Message) (pipeline : list Stage)
    : result (list Message) :=
  match pipeline with
  | [] => Ok docs
  | s :: pipeline' =>
      match stage s docs with
      | Ok docs' => Aggregate docs' pipeline'
      | Err e => Err e
      end
  end.

(** The loop over the cursor: every document becomes a [store.Message]. *)
Definition decode (docs : list Message) : list Message :=
  map (fun r => mkMessage (Time r) (RoomID r) (Payload r)) docs.

Definition bound (t : GoTime.Time) : option GoTime.Time :=
  if negb (GoTime.IsZero t) then Some t else None.

End Mongo.

(** [GetMessageCache(roomID, limit, dateFilter ...store.DateFilter)]:
    the version with a list of windows. *)
Module MongoVariadic.
Import Store Mongo.

Definition dateFilters (dateFilter : list DateFilter) : list Query :=
  flat_map
    (fun date =>
       if negb (GoTime.IsZero (Start date)) || negb (GoTime.IsZero (End date))
       then [IdIn (mkIdRange (bound (Start date)) (bound (End date)))]
       else [])
    dateFilter.

Definition pipelineQuery (roomID : string) (limit : Z)
    (dateFilter : list DateFilter) : list Stage :=
  [Match (And [RoomIs roomID; Or (dateFilters dateFilter)]); Sort (-1)]
    ++ (if limit >? 0 then [Limit limit] else []).

Definition GetMessageCache (docs : list Message) (roomID : string)
    (limit : Z) (dateFilter : list DateFilter) : result (list Message) :=
  match Aggregate docs (pipelineQuery roomID limit dateFilter) with
  | Ok rs => Ok (decode rs)
  | Err e => Err e
  end.

End MongoVariadic.

(** [GetMessageCache(roomID, limit, dateFilter store.DateFilter)]: the
    version of store/mongodb/mongodb.go, with one window. *)
Module MongoSingle.
Import Store Mongo.

Definition matchQuery (roomID : string) (dateFilter : DateFilter) : Query :=
  Fields
    ([RoomIs roomID]
       ++ (if negb (GoTime.IsZero (Start dateFilter))
              || negb (GoTime.IsZero (End dateFilter))
           then [IdIn (mkIdRange (bound (Start dateFilter))
                                 (bound (End dateFilter)))]
           else [])).

Definition pipelineQuery (roomID : string) (limit : Z)
    (dateFilter : DateFilter) : list Stage :=
  [Match (matchQuery roomID dateFilter); Sort (-1)]
    ++ (if limit >? 0 then [Limit limit] else [])
    ++ [Sort 1].

Definition GetMessageCache (docs : list Message) (roomID : string)
    (limit : Z) (dateFilter : DateFilter) : result (list Message) :=
  match Aggregate docs (pipelineQuery roomID limit dateFilter) with
  | Ok rs => Ok (decode rs)
  | Err e => Err e
  end.

End MongoSingle.

(** [GetMessageCache(roomID, limit)]: the version without windows. *)
Module MongoPlain.
Import Store Mongo.

Definition pipelineQuery (roomID : string) (limit : Z) : list Stage :=
  [Match (Fields [RoomIs roomID]); Sort (-1); Limit limit; Sort 1].

Definition GetMessageCache (docs : list Message) (roomID : string)
    (limit : Z) : result (list Message) :=
  match Aggregate docs (pipelineQuery roomID limit) with
  | Ok rs => Ok (decode rs)
  | Err e => Err e
  end.

End MongoPlain.

(** ** HTTP handlers (handlers.go) *)

Module Handlers.
Import GoStrings Store GoTime.

(** The constant block: [iota] is 2 on the line of [hasAuth]. *)
Definition defaultDateFormatForRequestParam : string :=
  "2006-01-02 15:04:05.999999 -0700".
Definition dateFormat : string := "2006-01-02".
Definition hasAuth : Z := Z.shiftl 1 2.
Definition hasRoom : Z := Z.shiftl 1 3.

Definition StatusBadRequest : Z := 400.
Definition StatusForbidden : Z := 403.

Record sess : Type := mkSess { sessID : string; Handle : string }.

(** [hub.Room], as far as the handlers read it. *)
Record Room : Type := mkRoom { ID : string; Name : string }.

(** [reqCtx] *)
Record reqCtx : Type := mkReqCtx {
  room : option Room;          (* nil when the room is not active *)
  roomID : string;
  session : sess
}.

(** [reqChatHistory]: the query parameters of a history request. *)
Record reqChatHistory : Type := mkReqChatHistory {
  From : string;
  Until : string;
  Type_ : string;
  Hours : string;
  TimeZone : string;
  InCSV : string
}.

(** What the handlers see of the process: the store behind the hub, the
    time zone database and the local zone. *)
Record App : Type := mkApp {
  GetSession : string -> string -> option sess;   (* None: an error *)
  ActivateRoom : string -> option Room;           (* None: an error *)
  zoneinfo : string -> option Location;           (* None: unknown name *)
  Local : Location                                (* time.Local *)
}.

(** [time.LoadLocation(name)] *)
Definition LoadLocation (app : App) (name : string) : option Location :=
  if String.eqb name "" || String.eqb name "UTC" then Some UTC
  else if String.eqb name "Local" then Some (Local app)
  else zoneinfo app name.

(** *** [wrap] *)

(** What [wrap] reads of the request: the session cookie ([None] when
    [r.Cookie] returns [nil]), the [session_id] of the query string and
    of the header (empty when absent), and the room of the route. *)
Record Request : Type := mkRequest {
  ck : option string;
  querySessionID : string;
  headerSessionID : string;
  urlRoomID : string
}.

Inductive result (A : Type) : Type :=
| Next (a : A)                           (* the handler goes on with a *)
| respondJSON (status : Z) (err : string) (* an error response *)
| NilDereference.                        (* panic: nil pointer dereference *)
Arguments Next {A} a.
Arguments respondJSON {A} status err.
Arguments NilDereference {A}.

Definition nonEmpty (s : string) : bool := negb (String.eqb s "").

Definition ckHasValue (c : option string) : bool :=
  match c with
  | Some v => nonEmpty v
  | None => false
  end.

(** The choice of the session token inside the authenticated branch. *)
Definition sessionToken (r : Request) : result string :=
  if negb (ckHasValue (ck r)) && nonEmpty (querySessionID r) then
    Next (querySessionID r)
  else if negb (ckHasValue (ck r)) && nonEmpty (querySessionID r) then
    Next (headerSessionID r)
  else
    match ck r with
    | Some v => Next v
    | None => NilDereference
    end.

(** [wrap(next, app, opts)] up to the call of [next]: the context handed
    to the handler, or the way the middleware ends the request. *)
Definition wrap (app : App) (opts : Z) (r : Request) : result reqCtx :=
  let roomID := urlRoomID r in
  let authenticated :=
    if negb (Z.land opts hasAuth =? 0) then
      if ckHasValue (ck r) || nonEmpty (querySessionID r)
         || nonEmpty (headerSessionID r)
      then
        match sessionToken r with
        | Next token =>
            match GetSession app token roomID with
            | None => respondJSON StatusForbidden "error checking session"
            | Some s => Next (mkSess (sessID s) (Handle s))
            end
        | respondJSON st e => respondJSON st e
        | NilDereference => NilDereference
        end
      else Next (mkSess "" "")
    else Next (mkSess "" "") in
  match authenticated with
  | Next s =>
      let rm :=
        if negb (Z.land opts hasRoom =? 0) then ActivateRoom app roomID
        else None in
      Next (mkReqCtx rm roomID s)
  | respondJSON st e => respondJSON st e
  | NilDereference => NilDereference
  end.

(** *** [handleChatHistory] *)

(** How one pass through the body of a loop ends. *)
Inductive step : Type :=
| Continue (dateFilters : list DateFilter)
| Break (dateFilters : list DateFilter)       (* break dateLoop *)
| Return (status : Z) (err : string)          (* respondJSON and return *)
| Panic.                                      (* index out of range *)

(** The body of the date loop when no hours are given. *)
Definition dayWindow (timeLocation : Location) (now nowStart nowEnd : Time)
    (i : Time) (dateFilters : list DateFilter) : step :=
  let start :=
    Date (Year UTC i) (Month UTC i) (Day UTC i)
         (HourOf timeLocation nowStart) (MinuteOf timeLocation nowStart)
         (SecondOf timeLocation nowStart) (NanosecondOf nowStart)
         timeLocation in
  let stop :=
    Date (Year UTC i) (Month UTC i) (Day UTC i)
         (HourOf timeLocation nowEnd) (MinuteOf timeLocation nowEnd)
         (SecondOf timeLocation nowEnd) (NanosecondOf nowEnd)
         timeLocation in
  let stop :=
    if negb (Before start stop) then AddDate timeLocation stop 0 0 1
    else stop in
  let stop := if Before now stop then now else stop in
  if After start now then Break dateFilters
  else Continue (dateFilters ++ [mkDateFilter start stop]).

(** The body of the loop over the hour ranges of one day. *)
Definition hourWindow (now : Time) (i : Time) (hour : string)
    (dateFilters : list DateFilter) : step :=
  let day := FormatDate UTC i in
  let parts := Split "-"%char hour in
  match ParseDateTimeZone (day ++ " " ++ nth 0 parts "")%string with
  | None => Return StatusBadRequest "Error parsing hours for date"
  | Some (start, _) =>
      match parts with
      | _ :: hi :: _ =>
          match ParseDateTimeZone (day ++ " " ++ hi)%string with
          | None => Return StatusBadRequest "Error parsing hours for date"
          | Some (stop, zone) =>
              let stop :=
                if Before stop start then AddDate (FixedZone zone) stop 0 0 1
                else stop in
              let stop := if Before now stop then now else stop in
              if After start now then Break dateFilters
              else Continue (dateFilters ++ [mkDateFilter start stop])
          end
      | _ => Panic
      end
  end.

(** [for _, hour := range hourArray] *)
Fixpoint hourLoop (now : Time) (i : Time) (hourArray : list string)
    (dateFilters : list DateFilter) : step :=
  match hourArray with
  | [] => Continue dateFilters
  | hour :: hourArray' =>
      match hourWindow now i hour dateFilters with
      | Continue dateFilters' => hourLoop now i hourArray' dateFilters'
      | other => other
      end
  end.

(** How the date loop ends; [OutOfFuel] is the bound of the model on the
    number of passes, not a behaviour of the source. *)
Inductive loopResult : Type :=
| Done (dateFilters : list DateFilter)
| Failed (status : Z) (err : string)
| Panicked
| OutOfFuel.

(** [for i := start; !i.After(end); i = i.AddDate(0, 0, 1)] *)
Fixpoint dateLoop (fuel : nat) (timeLocation : Location)
    (now nowStart nowEnd : Time) (hours : string) (hourArray : list string)
    (stop : Time) (i : Time) (dateFilters : list DateFilter) : loopResult :=
  match fuel with
  | O => OutOfFuel
  | S fuel' =>
      if After i stop then Done dateFilters
      else
        let body :=
          if (Nat.leb (List.length hourArray) 0) || String.eqb hours ""
          then dayWindow timeLocation now nowStart nowEnd i dateFilters
          else hourLoop now i hourArray dateFilters in
        match body with
        | Continue dateFilters' =>
            dateLoop fuel' timeLocation now nowStart nowEnd hours hourArray
              stop (AddDate UTC i 0 0 1) dateFilters'
        | Break dateFilters' => Done dateFilters'
        | Return status err => Failed status err
        | Panic => Panicked
        end
  end.

(** [sort.SliceStable(dateFilters, ...)] by [Start.Before]: windows
    with the same start keep their order. *)
Fixpoint insertFilter (f : DateFilter) (l : list DateFilter)
    : list DateFilter :=
  match l with
  | [] => [f]
  | x :: l' =>
      if Before (Start x) (Start f) then x :: insertFilter f l' else f :: l
  end.

Definition SliceStable (l : list DateFilter) : list DateFilter :=
  fold_right insertFilter [] l.

(** How the handler ends: an error response, a panic, or the call
    [app.hub.GetChatHistory(room.ID, dateFilters...)]; [Unbounded] stands
    for a date loop that outruns [passes].  The error messages are those
    of the source without the quotation marks around the parameter
    names. *)
Inductive outcome : Type :=
| Respond (status : Z) (err : string)
| Panics
| GetChatHistory (roomID : string) (dateFilters : list DateFilter)
| Unbounded.

(** More passes than the date loop can make between two dates. *)
Definition passes (start stop : Time) : nat :=
  Z.to_nat ((stop - start) / (24 * Hour)) + 2.

(** [handleChatHistory]: [now] is the value of [time.Now()]. *)
Definition handleChatHistory (app : App) (now : Time) (ctx : reqCtx)
    (req : reqChatHistory) : outcome :=
  match room ctx with
  | None => Respond StatusBadRequest "room is invalid or has expired"
  | Some rm =>
  match ParseDate (From req) with
  | None =>
      Respond StatusBadRequest "error parsing JSON request for from param"
  | Some start =>
  match ParseDate (Until req) with
  | None =>
      Respond StatusBadRequest "error parsing JSON request for until param"
  | Some stop =>
      if After start stop then
        Respond StatusBadRequest "date of  from can't be after until"
      else
        let timeLocation :=
          match (if nonEmpty (TimeZone req)
                 then LoadLocation app (TimeZone req) else None) with
          | Some l => l
          | None => UTC
          end in
        let hourArray := Split ","%char (Hours req) in
        let nowStart := Truncate now (24 * Hour) in
        let nowEnd := Add nowStart (23 * Hour + 59 * Minute + 59 * Second) in
        match dateLoop (passes start stop) timeLocation now nowStart nowEnd
                (Hours req) hourArray stop start [] with
        | Done dateFilters => GetChatHistory (ID rm) (SliceStable dateFilters)
        | Failed status err => Respond status err
        | Panicked => Panics
        | OutOfFuel => Unbounded
        end
  end end end.

End Handlers.

(** ** The broadcast loop of a room *)

Module Room.

(** Modelled from the spec: the hub package (internal/hub: Hub, Room,
    Peer and the broadcast loop), which is not among the sources.  The
    spec gives a room one broadcast loop that serializes all fan-out
    decisions; a peer has a bounded outbound queue drained by its write
    pump; every inbound message is enqueued, in the order the loop
    receives it, onto the queue of every other registered peer; a peer
    whose queue is full is dropped; a departing peer is deregistered.
    The read pumps, the write pumps and the loop run concurrently: a run
    of the room is the sequence of their actions in the order the room
    state sees them.  A peer is named by its session ID. *)
Definition PeerID := string.

Record Message : Type := mkMessage {
  sender : PeerID;
  payload : list Byte.byte
}.

(** Modelled from the spec: a registered peer (section 4.3), with its
    outbound queue (oldest first), what the write pump has written to
    the transport (oldest first), and the number of messages the loop
    had received when the peer was registered; the loop does not read
    that number, the order property is stated with it. *)
Record Peer : Type := mkPeer {
  dataQ : list Message;
  written : list Message;
  since : nat
}.

Record State : Type := mkState {
  peers : PeerID -> option Peer;
  received : list Message          (* in the order the loop received them *)
}.

Inductive Event : Type :=
| AddPeer (id : PeerID)                       (* a connection is attached *)
| Inbound (m : Message)                       (* the loop receives m *)
| Write (id : PeerID)                         (* a write pump writes one frame *)
| Depart (id : PeerID).                       (* transport closed or removal *)

Section Policy.

(** The capacity of an outbound queue, and whether the sender gets
    its own message back. *)
Variable capacity : nat.
Variable echo : bool.

Definition update (ps : PeerID -> option Peer) (id : PeerID)
    (p : option Peer) : PeerID -> option Peer :=
  fun id' => if String.eqb id' id then p else ps id'.

(** Whether [m] is fanned out to the peer [id]. *)
Definition addressed (id : PeerID) (m : Message) : bool :=
  echo || negb (String.eqb (sender m) id).

(** Modelled from the spec: the fan-out of [m] to one registered
    peer (section 4.2), which enqueues, or drops the peer when its
    queue is full. *)
Definition fanOut (m : Message) (id : PeerID) (p : Peer) : option Peer :=
  if addressed id m then
    if (List.length (dataQ p) <? capacity)%nat
    then Some (mkPeer (dataQ p ++ [m]) (written p) (since p))
    else None
  else Some p.

(** Modelled from the spec: one action on the state of the room
    (section 4.2): [AddPeer] registers a peer with an empty queue, an
    inbound message is fanned out to the registered peers, a write
    pump moves the head of its queue to the transport, a departure
    deregisters the peer. *)
Definition step (s : State) (e : Event) : State :=
  match e with
  | AddPeer id =>
      mkState (update (peers s) id
                 (Some (mkPeer [] [] (List.length (received s)))))
              (received s)
  | Inbound m =>
      mkState (fun id => match peers s id with
                         | Some p => fanOut m id p
                         | None => None
                         end)
              (received s ++ [m])
  | Write id =>
      match peers s id with
      | Some (mkPeer (m :: q) w n) =>
          mkState (update (peers s) id (Some (mkPeer q (w ++ [m]) n)))
                  (received s)
      | _ => s
      end
  | Depart id => mkState (update (peers s) id None) (received s)
  end.

Definition run (s : State) (es : list Event) : State :=
  fold_left step es s.

(** A room whose peers [ids] are attached before any message. *)
Definition opened (ids : list PeerID) : State :=
  run (mkState (fun _ => None) []) (map AddPeer ids).

(** What a peer observes: the frames written to its transport, then
    the frames waiting in its queue. *)
Definition observed (p : Peer) : list Message := written p ++ dataQ p.

End Policy.

End Room.

(** ** Appending to the message cache *)

Module MongoWrite.
Import Store Mongo.



End MongoWrite.

(** ** The handlers of rooms and sessions (handlers.go) *)

Module RoomHandlers.
Import Store.

(** [reqRoom]: the JSON body of a login or of a room creation. *)
Record reqRoom : Type := mkReqRoom {
  Name : string;
  Handle : string;
  Password : string
}.

(** [*hub.Room] as these handlers read it: the room of the context and
    its [Password] field. *)
Definition HubRoom : Type := (Handlers.Room * list Byte.byte)%type.

(** What the handlers call outside this file: bcrypt, the hub, the
    store behind it, the websocket upgrader, and the name of the
    session cookie of the configuration.  A store call answers [true]
    when it returns no error. *)
Record Services : Type := mkServices {
  GenerateFromPassword : string -> option (list Byte.byte);
  CompareHashAndPassword : list Byte.byte -> string -> bool;
  AddRoom : string -> string -> list Byte.byte -> result HubRoom;
  GenerateGUID : option string;
  AddSession : string -> string -> string -> bool;
  RemoveSession : string -> string -> bool;
  Upgrade : bool;
  SessionCookie : string
}.

(** The calls that change the hub or the store, as the handler issues
    them. *)
Inductive call : Type :=
| AddRoomCall (id name : string) (pwdHash : list Byte.byte)
| AddSessionCall (sessID handle roomID : string)
| RemoveSessionCall (sessID roomID : string)
| AddPeerCall (room : option Handlers.Room) (id handle : string).

(** The [data] of a JSON response. *)
Inductive payload : Type :=
| Nothing
| Text (s : string)
| Flag (b : bool)
| SessionOf (name value : string)      (* map[SessionCookie] = sessID *)
| Created (id : string).               (* struct{ID string}{room.ID} *)

(** [http.Cookie]: name, value and MaxAge; the path is always "/". *)
Record Cookie : Type := mkCookie {
  cookieName : string;
  cookieValue : string;
  MaxAge : Z
}.

(** What [respondJSON] and [http.SetCookie] send. *)
Record reply : Type := mkReply {
  status : Z;
  data : payload;
  error : option string;
  setCookie : option Cookie
}.

(** A handled request: the calls issued, in order, and the reply;
    there is no reply of the handler when the websocket upgrader takes
    the connection over. *)
Record outcome : Type := mkOutcome {
  calls : list call;
  response : option reply
}.

Definition StatusOK : Z := 200.
Definition StatusInternalServerError : Z := 500.

(** [respondJSON(w, data, err, statusCode)] after the calls [cs]. *)
Definition respondJSON (cs : list call) (d : payload) (e : option string)
    (statusCode : Z) : outcome :=
  mkOutcome cs
    (Some (mkReply (if statusCode =? 0 then StatusOK else statusCode)
                   d e None)).

(** [handleLogin]: [req] is what [readJSONReq] reads, [None] when it
    fails. *)
Definition handleLogin (sv : Services) (room : option HubRoom)
    (roomID : string) (req : option reqRoom) : outcome :=
  match req with
  | None =>
      respondJSON [] Nothing (Some "error parsing JSON request")
        Handlers.StatusBadRequest
  | Some req =>
      let created :=
        match room with
        | Some rm => inl ([], rm)
        | None =>
            match GenerateFromPassword sv (Password req) with
            | None =>
                inr (respondJSON [] (Text "Error hashing password") None
                       StatusInternalServerError)
            | Some pwdHash =>
                match AddRoom sv roomID roomID pwdHash with
                | Err e =>
                    inr (respondJSON [AddRoomCall roomID roomID pwdHash]
                           Nothing (Some e) StatusInternalServerError)
                | Ok rm => inl ([AddRoomCall roomID roomID pwdHash], rm)
                end
            end
        end in
      match created with
      | inr out => out
      | inl (cs, rm) =>
          if negb (CompareHashAndPassword sv (snd rm) (Password req)) then
            respondJSON cs Nothing (Some "incorrect password")
              Handlers.StatusForbidden
          else
            match GenerateGUID sv with
            | None =>
                respondJSON cs Nothing (Some "error generating session ID")
                  StatusInternalServerError
            | Some sessID =>
                let cs' :=
                  (cs ++ [AddSessionCall sessID (Handle req)
                            (Handlers.ID (fst rm))])%list in
                if negb (AddSession sv sessID (Handle req)
                           (Handlers.ID (fst rm)))
                then
                  respondJSON cs' Nothing (Some "error creating session")
                    StatusInternalServerError
                else
                  mkOutcome cs'
                    (Some (mkReply StatusOK
                             (SessionOf (SessionCookie sv) sessID) None
                             (Some (mkCookie (SessionCookie sv) sessID 0))))
            end
      end
  end.

(** [handleLogout] *)
Definition handleLogout (sv : Services) (ctx : Handlers.reqCtx) : outcome :=
  match Handlers.room ctx with
  | None =>
      respondJSON [] Nothing (Some "room is invalid or has expired")
        Handlers.StatusBadRequest
  | Some rm =>
      let cs :=
        [RemoveSessionCall (Handlers.sessID (Handlers.session ctx))
           (Handlers.ID rm)] in
      if negb (RemoveSession sv (Handlers.sessID (Handlers.session ctx))
                 (Handlers.ID rm))
      then
        respondJSON cs Nothing (Some "error removing session")
          StatusInternalServerError
      else
        mkOutcome cs
          (Some (mkReply StatusOK (Flag true) None
                   (Some (mkCookie (SessionCookie sv) "" (-1)))))
  end.

(** [handleWS]: the room of the context is handed to [AddPeer] as it
    is. *)
Definition handleWS (sv : Services) (ctx : Handlers.reqCtx) : outcome :=
  if String.eqb (Handlers.sessID (Handlers.session ctx)) "" then
    respondJSON [] Nothing (Some "invalid session") Handlers.StatusForbidden
  else if negb (Upgrade sv) then mkOutcome [] None
  else
    mkOutcome
      [AddPeerCall (Handlers.room ctx)
         (Handlers.sessID (Handlers.session ctx))
         (Handlers.Handle (Handlers.session ctx))]
      None.

(** [handleCreateRoom]: [len] counts bytes. *)
Definition handleCreateRoom (sv : Services) (req : option reqRoom)
    : outcome :=
  match req with
  | None =>
      respondJSON [] Nothing (Some "error parsing JSON request")
        Handlers.StatusBadRequest
  | Some req =>
      if negb (String.eqb (Name req) "")
         && ((String.length (Name req) <? 3)%nat
             || (100 <? String.length (Name req))%nat)
      then
        respondJSON [] Nothing (Some "invalid room name (6 - 100 chars)")
          Handlers.StatusBadRequest
      else if (String.length (Password req) <? 6)%nat
              || (100 <? String.length (Password req))%nat
      then
        respondJSON [] Nothing (Some "invalid password (6 - 100 chars)")
          Handlers.StatusBadRequest
      else
        match GenerateFromPassword sv (Password req) with
        | None =>
            respondJSON [] (Text "Error hashing password") None
              StatusInternalServerError
        | Some pwdHash =>
            match AddRoom sv "" (Name req) pwdHash with
            | Err e =>
                respondJSON [AddRoomCall "" (Name req) pwdHash] Nothing
                  (Some e) StatusInternalServerError
            | Ok rm =>
                respondJSON [AddRoomCall "" (Name req) pwdHash]
                  (Created (Handlers.ID (fst rm))) None StatusOK
            end
        end
  end.

End RoomHandlers.

(** * The vocabulary of the statements *)

Ltac zdiv := Z.to_euclidean_division_equations; lia.

(** Case analysis on an integer variable [n] known to lie among the
    [count] integers from [first]. *)
Ltac among n first count :=
  let H := fresh "H" in
  assert (H : In n (map Z.of_nat (seq first count))) by (vm_compute; lia);
  vm_compute in H;
  repeat (destruct H as [H|H]; [subst n|]); [..|contradiction].

Module Calendar.
Import GoStrings GoTime.

(** The day number of a calendar date, as [Date] computes it. *)
Definition daysOf (y m d : Z) : Z :=
  daysSinceEpoch y + daysBefore (m - 1)
  + (if isLeap y && (m >=? 3) then 1 else 0) + (d - 1).

(** Day numbers of the years 0 to 9999, which the date layout can
    write with four digits. *)
Definition firstDay : Z := -366.
Definition lastDay : Z := 3652058.

(** The day number of an instant in UTC. *)
Definition dayNumber (i : Time) : Z := abs UTC i / secondsPerDay.

(** Two and four decimal digits in front of a string. *)
Definition str2 (a b : Z) (rest : string) : string :=
  String (digitChar a) (String (digitChar b) rest).

Definition str4 (a b c d : Z) (rest : string) : string :=
  str2 a b (str2 c d rest).

End Calendar.

Module History.
Import GoStrings Store GoTime Handlers.

(** A window that holds no future time. *)
Definition notAfter (now : Time) (f : DateFilter) : Prop :=
  Start f <= now /\ End f <= now.

(** The windows a pass through a loop body leaves behind. *)
Definition windowsOf (s : step) : list DateFilter :=
  match s with
  | Continue l | Break l => l
  | Return _ _ | Panic => []
  end.

Definition loopWindows (r : loopResult) : list DateFilter :=
  match r with
  | Done l => l
  | _ => []
  end.

(** Whether the clock part of a component of an hour range reads. *)
Definition clockReads (component : string) : bool :=
  match parseClock (" " ++ component) with
  | Some _ => true
  | None => false
  end.

(** An hour range with a component that does not read: the first one,
    or the second one when there is a second one. *)
Definition badRange (hour : string) : Prop :=
  clockReads (nth 0 (Split "-" hour) "") = false
  \/ (exists hi, nth_error (Split "-" hour) 1 = Some hi
                 /\ clockReads hi = false).

(** A process whose store knows no session and no room, whose time
    zone database is empty and whose local zone is UTC. *)
Definition bareApp : App :=
  mkApp (fun _ _ => None) (fun _ => None) (fun _ => None) UTC.

(** The context of a request to the active room [id] without a
    session. *)
Definition roomCtx (id : string) : reqCtx :=
  mkReqCtx (Some (mkRoom id id)) id (mkSess "" "").

(** A history request in UTC. *)
Definition historyOf (from until hours : string) : reqChatHistory :=
  mkReqChatHistory from until "" hours "UTC" "".

End History.

Module Cache.
Import Store Mongo.

(** The order a sort by [le] on the instants gives. *)
Definition ordered (le : GoTime.Time -> GoTime.Time -> bool)
    (a b : Message) : Prop :=
  le (Time a) (Time b) = true.

(** Oldest first, and newest first. *)
Definition ascending (l : list Message) : Prop :=
  StronglySorted (fun a b => Time a <= Time b) l.
Definition descending (l : list Message) : Prop :=
  StronglySorted (fun a b => Time b <= Time a) l.

(** A window of the spec: a zero bound is no bound, and both bounds
    belong to the window. *)
Definition inside (f : DateFilter) (t : GoTime.Time) : bool :=
  (GoTime.IsZero (Start f) || (Start f <=? t))
  && (GoTime.IsZero (End f) || (t <=? End f)).

(** A window with a bound. *)
Definition bounded (f : DateFilter) : bool :=
  negb (GoTime.IsZero (Start f)) || negb (GoTime.IsZero (End f)).

(** The records of a room. *)
Definition inRoom (roomID : string) (m : Message) : bool :=
  String.eqb (RoomID m) roomID.

(** The records of a room inside one of the windows that have a
    bound. *)
Definition inSomeWindow (roomID : string) (fs : list DateFilter)
    (m : Message) : bool :=
  inRoom roomID m && existsb (fun f => bounded f && inside f (Time m)) fs.

(** The records of a room inside a window. *)
Definition inWindow (roomID : string) (f : DateFilter) (m : Message) : bool :=
  inRoom roomID m && inside f (Time m).

(** Sample records: three messages of the room r on 2023-01-01, at
    09:00, 10:00 and 11:00 UTC, and one of another room. *)
Definition at9 : Message :=
  mkMessage (GoTime.Date 2023 1 1 9 0 0 0 GoTime.UTC) "r" [Byte.x61].
Definition at10 : Message :=
  mkMessage (GoTime.Date 2023 1 1 10 0 0 0 GoTime.UTC) "r" [Byte.x62].
Definition at11 : Message :=
  mkMessage (GoTime.Date 2023 1 1 11 0 0 0 GoTime.UTC) "r" [Byte.x63].
Definition elsewhere : Message :=
  mkMessage (GoTime.Date 2023 1 1 10 30 0 0 GoTime.UTC) "s" [Byte.x64].

Definition sampleDocs : list Message := [at10; elsewhere; at9; at11].

(** The whole of 2023-01-01. *)
Definition newYearsDay : DateFilter :=
  mkDateFilter (GoTime.Date 2023 1 1 0 0 0 0 GoTime.UTC)
               (GoTime.Date 2023 1 1 23 59 59 0 GoTime.UTC).

End Cache.

Module Broadcast.
Import Room.

(** What a registered peer has observed is what the loop has received
    since the peer was registered, in the order of the loop, without
    the messages that are not addressed to the peer. *)
Definition inOrder (echo : bool) (s : State) : Prop :=
  forall id p,
    peers s id = Some p ->
    (since p <= List.length (received s))%nat
    /\ observed p
       = filter (addressed echo id) (skipn (since p) (received s)).

(** A sample run: three peers, four messages, a write and a
    departure. *)
Definition say (id : PeerID) (b : Byte.byte) : Message := mkMessage id [b].

Definition chatter : list Event :=
  [Inbound (say "a" Byte.x31); Inbound (say "b" Byte.x32); Write "c";
   Inbound (say "a" Byte.x33); Depart "a"; Inbound (say "c" Byte.x34)].

End Broadcast.

Module CacheTerms.
Import Store Mongo.

(** The window without bounds. *)
Definition anyTime : DateFilter := mkDateFilter 0 0.



End CacheTerms.

Module HistoryTerms.
Import GoStrings Store GoTime Handlers.

(** Windows in the order of their starts. *)
Definition sortedByStart (l : list DateFilter) : Prop :=
  StronglySorted (fun a b => Start a <= Start b) l.

(** The last second of the day that starts at an instant. *)
Definition endOfDay (start : Time) : Time :=
  start + (23 * Hour + 59 * Minute + 59 * Second).

(** One window for each of [n] days from the instant [start] on, as far
    as the days have begun: from the first second of the day to its
    last second, or to [now] when that comes first. *)
Fixpoint fullDays (now start : Time) (n : nat) : list DateFilter :=
  match n with
  | O => []
  | S n' =>
      if start >? now then []
      else mkDateFilter start (Z.min (endOfDay start) now)
             :: fullDays now (start + 24 * Hour) n'
  end.

(** The number of days from the day of [start] to the day of [stop]. *)
Definition dayCount (start stop : Time) : nat :=
  Z.to_nat ((stop - start) / (24 * Hour) + 1).

(** A [timezone] parameter that leaves the handler with UTC: absent,
    UTC by name, or a name the time zone database does not know. *)
Definition meansUTC (app : App) (name : string) : Prop :=
  name = "" \/ name = "UTC"
  \/ (name <> "Local" /\ zoneinfo app name = None).

(** The same request with another [timezone]. *)
Definition withTimeZone (req : reqChatHistory) (name : string)
    : reqChatHistory :=
  mkReqChatHistory (From req) (Until req) (Type_ req) (Hours req) name
    (InCSV req).

(** A string without the byte [-]. *)
Fixpoint noDash (s : string) : bool :=
  match s with
  | EmptyString => true
  | String c rest => negb (Ascii.eqb c "-") && noDash rest
  end.

(** A request that carries no session: no cookie value, no
    [session_id] in the query string or in the header. *)
Definition anonymous (r : Request) : Prop :=
  ckHasValue (ck r) = false
  /\ querySessionID r = "" /\ headerSessionID r = "".

End HistoryTerms.

Module RoomTerms.
Import Store RoomHandlers.

Fixpoint sameBytes (a b : list Byte.byte) : bool :=
  match a, b with
  | [], [] => true
  | x :: a', y :: b' => Byte.eqb x y && sameBytes a' b'
  | _, _ => false
  end.

(** Services that never fail: the hash of a password is its bytes, a
    room without an id gets the id [fresh], every session gets the id
    [s1], and the session cookie is called [sess]. *)
Definition plainServices : Services :=
  mkServices
    (fun pw => Some (list_byte_of_string pw))
    (fun h pw => sameBytes h (list_byte_of_string pw))
    (fun id name h =>
       Ok (Handlers.mkRoom (if String.eqb id "" then "fresh" else id) name,
           h))
    (Some "s1")
    (fun _ _ _ => true)
    (fun _ _ => true)
    true
    "sess".

(** A process whose store holds the session [s1] of [ann] for every
    room, and in which every room is active. *)
Definition oneSessionApp : Handlers.App :=
  Handlers.mkApp
    (fun token _ =>
       if String.eqb token "s1" then Some (Handlers.mkSess "s1" "ann")
       else None)
    (fun id => Some (Handlers.mkRoom id id))
    (fun _ => None)
    GoTime.UTC.

(** The replies of the four handlers of rooms and sessions. *)
Inductive handled (sv : Services) : outcome -> Prop :=
| byLogin room roomID req : handled sv (handleLogin sv room roomID req)
| byLogout ctx : handled sv (handleLogout sv ctx)
| byWS ctx : handled sv (handleWS sv ctx)
| byCreateRoom req : handled sv (handleCreateRoom sv req).

(** A length that [handleCreateRoom] accepts for a password. *)
Definition passwordFits (pw : string) : Prop :=
  (6 <= String.length pw <= 100)%nat.

(** A name that [handleCreateRoom] accepts for a room. *)
Definition nameFits (name : string) : Prop :=
  name = "" \/ (3 <= String.length name <= 100)%nat.

End RoomTerms.

(** * Facts about the time model *)

Module TimeFacts.
Import GoStrings GoTime Calendar.

Lemma isLeap_spec y :
  isLeap y = true <-> (y mod 4 = 0 /\ (y mod 100 <> 0 \/ y mod 400 = 0)).
Proof.
  unfold isLeap.
  rewrite andb_true_iff, orb_true_iff, negb_true_iff, !Z.eqb_eq, Z.eqb_neq.
  zdiv.
Qed.

Lemma yearDay_spec k :
  let '(y, yd) := yearDay k in
  daysSinceEpoch y + yd = k /\ 0 <= yd /\
  (yd <= 364 \/ (yd = 365 /\ isLeap y = true)).
Proof.
  unfold yearDay, daysSinceEpoch, daysPer400Years, daysPer100Years,
    daysPer4Years.
  rewrite !Z.shiftr_div_pow2 by lia. change (2 ^ 2) with 4.
  rewrite isLeap_spec. cbv zeta. zdiv.
Qed.

Ltac table :=
  repeat match goal with
    | |- context [daysBefore ?c] =>
        let v := eval vm_compute in (daysBefore c) in
        change (daysBefore c) with v
    end.

Ltac tests :=
  repeat (match goal with
          | |- context [Z.geb ?a ?b] => destruct (Z.geb_spec a b)
          | |- context [Z.eqb ?a ?b] => destruct (Z.eqb_spec a b)
          end; cbn [andb]; try lia).

Lemma monthDay_spec y yd :
  0 <= yd -> (yd <= 364 \/ (yd = 365 /\ isLeap y = true)) ->
  let '(y', m, d) := monthDay y yd in
  y' = y /\ 1 <= m <= 12 /\ 1 <= d <= daysIn m y /\
  daysBefore (m - 1) + (if isLeap y && (m >=? 3) then 1 else 0) + (d - 1)
  = yd.
Proof.
  intros H0 H1. unfold monthDay.
  destruct (isLeap y) eqn:L; cbn [andb].
  - destruct (yd =? 31 + 29 - 1) eqn:E.
    + apply Z.eqb_eq in E. subst yd. unfold daysIn. rewrite L. table. tests.
    + apply Z.eqb_neq in E.
      remember (if yd >? 31 + 29 - 1 then yd - 1 else yd) as day eqn:Hday.
      assert (Hr : 0 <= day <= 364 /\ (yd > 59 -> day = yd - 1)
                   /\ (yd < 59 -> day = yd)).
      { subst day. destruct (Z.gtb_spec yd (31 + 29 - 1)); lia. }
      clear Hday.
      remember (day / 31) as mo eqn:Hmo.
      assert (Hq : 31 * mo <= day < 31 * mo + 31) by (subst mo; zdiv).
      clear Hmo.
      among mo 0%nat 12%nat; table;
        match goal with
        | |- context [?a >=? ?b] => destruct (Z.geb_spec a b)
        end;
        unfold daysIn; rewrite L; table; tests.
  - remember (yd / 31) as mo eqn:Hmo.
    assert (Hq : 31 * mo <= yd < 31 * mo + 31) by (subst mo; zdiv).
    assert (Hy : yd <= 364) by (destruct H1 as [|[_ ?]]; [lia|discriminate]).
    clear Hmo.
    among mo 0%nat 12%nat; table;
      match goal with
      | |- context [?a >=? ?b] => destruct (Z.geb_spec a b)
      end;
      unfold daysIn; rewrite L; table; tests.
Qed.

(** [absDate] gives a date of the calendar, and [Date] maps it back to
    the day number. *)
Lemma absDate_spec k :
  let '(y, m, d) := absDate k in
  1 <= m <= 12 /\ 1 <= d <= daysIn m y /\ daysOf y m d = k.
Proof.
  unfold absDate.
  pose proof (yearDay_spec k) as H.
  destruct (yearDay k) as [y yd].
  destruct H as (H1 & H2 & H3).
  pose proof (monthDay_spec y yd H2 H3) as H.
  destruct (monthDay y yd) as [[y' m] d].
  destruct H as (-> & Hm & Hd & He).
  unfold daysOf. repeat split; lia.
Qed.

Lemma absDate_year k :
  firstDay <= k <= lastDay -> 0 <= fst (fst (absDate k)) <= 9999.
Proof.
  unfold firstDay, lastDay. intros Hk.
  unfold absDate.
  pose proof (yearDay_spec k) as H.
  destruct (yearDay k) as [y yd] eqn:E.
  destruct H as (H1 & H2 & H3).
  pose proof (monthDay_spec y yd H2 H3) as H.
  destruct (monthDay y yd) as [[y' m] d].
  destruct H as (-> & _). cbn [fst].
  rewrite isLeap_spec in H3.
  revert H1. unfold daysSinceEpoch, daysPer400Years, daysPer100Years,
    daysPer4Years. cbv zeta. zdiv.
Qed.

Lemma daysIn_le m y : 1 <= m <= 12 -> daysIn m y <= 31.
Proof.
  intros Hm. unfold daysIn.
  destruct ((m =? 2) && isLeap y); [lia|].
  among m 1%nat 12%nat; table; lia.
Qed.

Lemma norm_id hi lo base : 0 <= lo < base -> norm hi lo base = (hi, lo).
Proof.
  intros H. unfold norm.
  destruct (Z.ltb_spec lo 0); [lia|].
  destruct (Z.geb_spec lo base); [lia|reflexivity].
Qed.

(** [Date] on a normalized wall clock in a fixed zone. *)
Lemma Date_FixedZone y m d h mi s ns off :
  1 <= m <= 12 -> 0 <= h < 24 -> 0 <= mi < 60 -> 0 <= s < 60 ->
  0 <= ns < 1000000000 ->
  Date y m d h mi s ns (FixedZone off)
  = (daysOf y m d * secondsPerDay + (h * 3600 + mi * 60 + s) - off) * Second
    + ns.
Proof.
  intros Hm Hh Hmi Hs Hns. unfold Date.
  rewrite (norm_id y (m - 1) 12) by lia.
  rewrite (norm_id s ns) by lia.
  rewrite (norm_id mi s) by lia.
  rewrite (norm_id h mi) by lia.
  rewrite (norm_id d h) by lia.
  replace (m - 1 + 1) with m by lia.
  unfold FixedZone, offsetAt, daysOf. cbn [fst snd].
  destruct (isLeap y && (m >=? 3));
    destruct (Z.eqb_spec off 0); try subst off;
    try match goal with |- context [if ?b then _ else _] => destruct b end;
    f_equal; lia.
Qed.

Lemma clock_sum a :
  (a mod secondsPerDay) / 3600 * 3600 + (a mod 3600) / 60 * 60 + a mod 60
  = a mod secondsPerDay.
Proof. unfold secondsPerDay. zdiv. Qed.

(** Adding one day in a fixed zone moves the instant by 24 hours. *)
Lemma AddDate_day off t : AddDate (FixedZone off) t 0 0 1 = t + 24 * Hour.
Proof.
  unfold AddDate, Year, Month, Day, DateOf, HourOf, MinuteOf, SecondOf.
  set (a := abs (FixedZone off) t).
  pose proof (absDate_spec (a / secondsPerDay)) as H.
  destruct (absDate (a / secondsPerDay)) as [[y m] d].
  cbn [fst snd]. destruct H as (Hm & Hd & He).
  rewrite !Z.add_0_r.
  rewrite Date_FixedZone;
    [| lia | unfold secondsPerDay; zdiv | zdiv | zdiv | unfold nsec, Second; zdiv].
  assert (E : daysOf y m (d + 1) = daysOf y m d + 1) by (unfold daysOf; lia).
  rewrite E, He.
  pose proof (clock_sum a) as C.
  assert (A : a = sec t + off) by reflexivity.
  unfold nsec, sec, Hour, Minute, Second, secondsPerDay in *.
  zdiv.
Qed.

End TimeFacts.

(** * Facts about formatting and parsing dates *)

Module ParseFacts.
Import GoStrings GoTime Calendar.

Lemma isDigitChar_digitChar n : 0 <= n <= 9 -> isDigitChar (digitChar n) = true.
Proof. intros H. among n 0%nat 10%nat; reflexivity. Qed.

Lemma digitVal_digitChar n : 0 <= n <= 9 -> digitVal (digitChar n) = n.
Proof. intros H. among n 0%nat 10%nat; reflexivity. Qed.

Lemma digitChar_not_sign n :
  0 <= n <= 9 ->
  Ascii.eqb (digitChar n) "-" = false /\ Ascii.eqb (digitChar n) "+" = false.
Proof. intros H. among n 0%nat 10%nat; split; reflexivity. Qed.

Lemma substring_all s : String.substring 0 (String.length s) s = s.
Proof. induction s as [|c s IH]; cbn; [reflexivity | now rewrite IH]. Qed.

Lemma decimal_S f u acc :
  decimal (S f) u acc =
  if u <? 10 then String (digitChar (u mod 10)) acc
  else decimal f (u / 10) (String (digitChar (u mod 10)) acc).
Proof. reflexivity. Qed.

(** Two and four digits, as [appendInt] writes them. *)
Lemma appendInt_2 x :
  0 <= x <= 99 -> appendInt x 2 = str2 (x / 10) (x mod 10) "".
Proof.
  intros H. unfold appendInt, str2.
  destruct (Z.ltb_spec x 0); [lia|].
  rewrite Z.abs_eq by lia.
  change 20%nat with (S (S 18)).
  rewrite decimal_S.
  destruct (Z.ltb_spec x 10).
  - cbn. replace (x / 10) with 0 by zdiv. reflexivity.
  - rewrite decimal_S.
    destruct (Z.ltb_spec (x / 10) 10); [|zdiv].
    cbn. replace (x / 10 mod 10) with (x / 10) by zdiv. reflexivity.
Qed.

Lemma appendInt_4 x :
  0 <= x <= 9999 ->
  appendInt x 4
  = str4 (x / 1000) (x / 100 mod 10) (x / 10 mod 10) (x mod 10) "".
Proof.
  intros H. unfold appendInt, str4, str2.
  destruct (Z.ltb_spec x 0); [lia|].
  rewrite Z.abs_eq by lia.
  change 20%nat with (S (S (S (S 16)))).
  rewrite decimal_S.
  destruct (Z.ltb_spec x 10).
  { cbn. replace (x / 1000) with 0 by zdiv.
    replace (x / 100 mod 10) with 0 by zdiv.
    replace (x / 10 mod 10) with 0 by zdiv. reflexivity. }
  rewrite decimal_S.
  destruct (Z.ltb_spec (x / 10) 10).
  { cbn. replace (x / 1000) with 0 by zdiv.
    replace (x / 100 mod 10) with 0 by zdiv. reflexivity. }
  rewrite decimal_S.
  destruct (Z.ltb_spec (x / 10 / 10) 10).
  { cbn. replace (x / 1000) with 0 by zdiv.
    replace (x / 10 / 10 mod 10) with (x / 100 mod 10) by zdiv.
    reflexivity. }
  rewrite decimal_S.
  destruct (Z.ltb_spec (x / 10 / 10 / 10) 10); [|zdiv].
  cbn. replace (x / 10 / 10 / 10 mod 10) with (x / 1000) by zdiv.
  replace (x / 10 / 10 mod 10) with (x / 100 mod 10) by zdiv.
  reflexivity.
Qed.

Lemma getnum_str2 a b rest fixed :
  0 <= a <= 9 -> 0 <= b <= 9 ->
  getnum (str2 a b rest) fixed = Some (a * 10 + b, rest).
Proof.
  intros Ha Hb. unfold getnum, str2.
  rewrite !isDigitChar_digitChar, !digitVal_digitChar by assumption.
  reflexivity.
Qed.

Lemma atoi_str4 a b c d :
  0 <= a <= 9 -> 0 <= b <= 9 -> 0 <= c <= 9 -> 0 <= d <= 9 ->
  atoi (str4 a b c d "") = Some (a * 1000 + b * 100 + c * 10 + d).
Proof.
  intros Ha Hb Hc Hd. unfold atoi, str4, str2.
  destruct (digitChar_not_sign a Ha) as [-> ->].
  cbn [leadingInt].
  rewrite !isDigitChar_digitChar, !digitVal_digitChar by assumption.
  f_equal. lia.
Qed.

Lemma parseYMD_head c0 c1 c2 c3 tail :
  parseYMD (String c0 (String c1 (String c2 (String c3 tail))))
  = bind (guard (isDigitChar c0)) (fun _ =>
    bind (atoi (String c0 (String c1 (String c2 (String c3 ""))))) (fun year =>
    bind (skip tail "-" false) (fun value =>
    bind (getnum value true) (fun '(month, value) =>
    bind (guard (negb ((month <=? 0) || (12 <? month)))) (fun _ =>
    bind (skip value "-" false) (fun value =>
    bind (getnum value true) (fun '(day, value) =>
    Some (year, month, day, value)))))))).
Proof.
  unfold parseYMD.
  cbn [isDigit String.get String.length Nat.leb String.substring Nat.sub].
  rewrite Nat.sub_0_r, substring_all, andb_true_r.
  replace (String.substring 0 0 tail) with "" by (destruct tail; reflexivity).
  reflexivity.
Qed.

Lemma skip_dash rest : skip (String "-" rest) "-" false = Some rest.
Proof. reflexivity. Qed.

(** The date chunks read back what [appendInt] wrote. *)
Lemma parseYMD_format y m d rest :
  0 <= y <= 9999 -> 1 <= m <= 12 -> 0 <= d <= 99 ->
  parseYMD (appendInt y 4 ++ "-" ++ appendInt m 2 ++ "-" ++ appendInt d 2
            ++ rest)%string
  = Some (y, m, d, rest).
Proof.
  intros Hy Hm Hd.
  rewrite appendInt_4, !appendInt_2 by lia.
  unfold str4, str2. cbn [append].
  rewrite parseYMD_head.
  rewrite isDigitChar_digitChar by zdiv.
  change (String (digitChar (y / 1000)) _)
    with (str4 (y / 1000) (y / 100 mod 10) (y / 10 mod 10) (y mod 10) "").
  rewrite atoi_str4 by zdiv.
  cbn [guard bind]. rewrite skip_dash. cbn [bind].
  change (String (digitChar (m / 10)) (String (digitChar (m mod 10)) ?r))
    with (str2 (m / 10) (m mod 10) r).
  rewrite getnum_str2 by zdiv.
  cbn [bind].
  replace (m / 10 * 10 + m mod 10) with m by zdiv.
  destruct (Z.leb_spec m 0); [lia|].
  destruct (Z.ltb_spec 12 m); [lia|].
  cbn [orb negb guard bind]. rewrite skip_dash. cbn [bind].
  change (String (digitChar (d / 10)) (String (digitChar (d mod 10)) ?r))
    with (str2 (d / 10) (d mod 10) r).
  rewrite getnum_str2 by zdiv.
  cbn [bind]. repeat f_equal; zdiv.
Qed.

End ParseFacts.

(** * Facts about the history handler *)

Module HistoryFacts.
Import GoStrings Store GoTime Handlers Calendar History TimeFacts.

Lemma clamp now start stop l :
  Forall (notAfter now) l ->
  Forall (notAfter now)
    (windowsOf
       (let stop := if Before now stop then now else stop in
        if After start now then Break l
        else Continue (l ++ [mkDateFilter start stop]))).
Proof.
  intros Hl. cbv zeta. unfold Before, After.
  destruct (Z.gtb_spec start now); cbn [windowsOf]; [assumption|].
  apply Forall_app. split; [assumption|].
  constructor; [|constructor].
  unfold notAfter. cbn [Start End].
  destruct (Z.ltb_spec now stop); lia.
Qed.

Lemma dayWindow_notAfter loc now nowStart nowEnd i l :
  Forall (notAfter now) l ->
  Forall (notAfter now) (windowsOf (dayWindow loc now nowStart nowEnd i l)).
Proof. intros Hl. unfold dayWindow. apply clamp, Hl. Qed.

Lemma hourWindow_notAfter now i hour l :
  Forall (notAfter now) l ->
  Forall (notAfter now) (windowsOf (hourWindow now i hour l)).
Proof.
  intros Hl. unfold hourWindow.
  destruct (ParseDateTimeZone _) as [[start ?]|]; [|constructor].
  destruct (Split "-" hour) as [|? [|hi ?]]; try constructor.
  destruct (ParseDateTimeZone _) as [[stop zone]|]; [|constructor].
  apply clamp, Hl.
Qed.

Lemma hourLoop_notAfter now i hourArray : forall l,
  Forall (notAfter now) l ->
  Forall (notAfter now) (windowsOf (hourLoop now i hourArray l)).
Proof.
  induction hourArray as [|hour hs IH]; intros l Hl; cbn [hourLoop].
  - exact Hl.
  - pose proof (hourWindow_notAfter now i hour l Hl) as H.
    destruct (hourWindow now i hour l); cbn [windowsOf] in *;
      try assumption; try constructor.
    apply IH, H.
Qed.

Lemma dateLoop_notAfter loc now nowStart nowEnd hours hourArray stop fuel :
  forall i l,
  Forall (notAfter now) l ->
  Forall (notAfter now)
    (loopWindows
       (dateLoop fuel loc now nowStart nowEnd hours hourArray stop i l)).
Proof.
  induction fuel as [|fuel IH]; intros i l Hl; cbn [dateLoop].
  - constructor.
  - destruct (After i stop); [exact Hl|].
    match goal with
    | |- context [match ?b with Continue _ => _ | _ => _ end] =>
        assert (H : Forall (notAfter now) (windowsOf b));
        [| destruct b; cbn [windowsOf loopWindows] in *;
           try assumption; try constructor; apply IH, H ]
    end.
    destruct (_ || _);
      [apply dayWindow_notAfter | apply hourLoop_notAfter]; exact Hl.
Qed.

Lemma insertFilter_Forall (P : DateFilter -> Prop) f l :
  P f -> Forall P l -> Forall P (insertFilter f l).
Proof.
  intros Hf Hl. induction Hl as [|x l Hx Hl IH]; cbn [insertFilter].
  - constructor; [assumption|constructor].
  - destruct (Before (Start x) (Start f)); constructor; auto.
Qed.

Lemma SliceStable_Forall (P : DateFilter -> Prop) l :
  Forall P l -> Forall P (SliceStable l).
Proof.
  intros Hl. induction Hl; cbn; [constructor|].
  apply insertFilter_Forall; assumption.
Qed.

(** The date loop ends within [passes]: each pass moves [i] by a day. *)
Lemma dateLoop_ends loc now nowStart nowEnd hours hourArray stop fuel :
  forall i l,
  (1 <= fuel)%nat ->
  (i <= stop -> (stop - i) / (24 * Hour) + 2 <= Z.of_nat fuel) ->
  dateLoop fuel loc now nowStart nowEnd hours hourArray stop i l
  <> OutOfFuel.
Proof.
  induction fuel as [|fuel IH]; intros i l H1 H2; [lia|].
  cbn [dateLoop]. unfold After.
  destruct (Z.gtb_spec i stop); [discriminate|].
  specialize (H2 ltac:(lia)).
  match goal with
  | |- context [match ?b with Continue _ => _ | _ => _ end] => destruct b
  end; try discriminate.
  rewrite (AddDate_day 0 i : AddDate UTC i 0 0 1 = _).
  assert (Hd : 0 < 24 * Hour) by (unfold Hour, Minute, Second; lia).
  assert (0 <= (stop - i) / (24 * Hour)) by (apply Z.div_pos; lia).
  apply IH; [lia|].
  intros Hi.
  replace (stop - (i + 24 * Hour)) with (stop - i + (-1) * (24 * Hour)) by lia.
  rewrite Z.div_add by lia. lia.
Qed.

Lemma handleChatHistory_bounded app now ctx req :
  handleChatHistory app now ctx req <> Unbounded.
Proof.
  unfold handleChatHistory.
  destruct (room ctx); [|discriminate].
  destruct (ParseDate (From req)) as [start|]; [|discriminate].
  destruct (ParseDate (Until req)) as [stop|]; [|discriminate].
  unfold After. destruct (Z.gtb_spec start stop); [discriminate|].
  match goal with
  | |- context [dateLoop ?f ?a ?b ?c ?d ?e ?g ?h ?i ?j] =>
      pose proof (dateLoop_ends a b c d e g h f i j) as Hends;
      destruct (dateLoop f a b c d e g h i j)
  end; try discriminate.
  exfalso. apply Hends; [unfold passes; lia | | reflexivity].
  intros _. unfold passes.
  assert (Hd : 0 < 24 * Hour) by (unfold Hour, Minute, Second; lia).
  assert (0 <= (stop - start) / (24 * Hour)) by (apply Z.div_pos; lia).
  lia.
Qed.

End HistoryFacts.

(** * The hour ranges of a history request *)

Module HourFacts.
Import GoStrings Store GoTime Handlers Calendar History.
Import TimeFacts ParseFacts HistoryFacts.

Lemma append_assoc (a b c : string) : ((a ++ b) ++ c = a ++ (b ++ c))%string.
Proof. induction a as [|x a IH]; cbn; [reflexivity | now rewrite IH]. Qed.

Lemma dayNumber_midnight k : dayNumber (k * (24 * Hour)) = k.
Proof.
  unfold dayNumber, abs, sec, UTC, FixedZone, offsetAt, Hour, Minute, Second,
    secondsPerDay.
  cbn [fst]. zdiv.
Qed.

(** A date written by [Format] and followed by a clock reads back as
    the same day, whatever the clock is. *)
Lemma ParseDateTimeZone_format i rest :
  firstDay <= dayNumber i <= lastDay ->
  ParseDateTimeZone (FormatDate UTC i ++ rest)
  = match parseClock rest with
    | Some (h, mi, s, ns, zone) =>
        Some (Date (Year UTC i) (Month UTC i) (Day UTC i) h mi s ns UTC
              - zone * Second, zone)
    | None => None
    end.
Proof.
  intros Hk.
  unfold ParseDateTimeZone, FormatDate, Year, Month, Day, DateOf.
  fold (dayNumber i).
  pose proof (absDate_spec (dayNumber i)) as Hs.
  pose proof (absDate_year (dayNumber i) Hk) as Hy.
  destruct (absDate (dayNumber i)) as [[y m] d]. cbn [fst snd] in *.
  destruct Hs as (Hm & Hd & He).
  pose proof (daysIn_le m y Hm) as Hle.
  rewrite !append_assoc.
  rewrite parseYMD_format by lia.
  cbn [bind].
  destruct (parseClock rest) as [[[[[h mi] s] ns] zone]|]; [|reflexivity].
  cbn [bind]. unfold dayInRange.
  destruct (Z.ltb_spec d 1); [lia|].
  destruct (Z.gtb_spec d (daysIn m y)); [lia|].
  reflexivity.
Qed.

Lemma hourWindow_unparsable now i hour l :
  firstDay <= dayNumber i <= lastDay ->
  clockReads (nth 0 (Split "-" hour) "") = false
  \/ (exists hi, nth_error (Split "-" hour) 1 = Some hi
                 /\ clockReads hi = false) ->
  hourWindow now i hour l
  = Return StatusBadRequest "Error parsing hours for date".
Proof.
  intros Hk Hbad. unfold hourWindow.
  rewrite ParseDateTimeZone_format by assumption.
  unfold clockReads in Hbad.
  destruct Hbad as [H1 | (hi & Hn & H2)].
  - destruct (parseClock (" " ++ nth 0 (Split "-" hour) ""))
      as [[[[[? ?] ?] ?] ?]|]; [discriminate|reflexivity].
  - destruct (parseClock (" " ++ nth 0 (Split "-" hour) ""))
      as [[[[[? ?] ?] ?] ?]|]; [|reflexivity].
    destruct (Split "-" hour) as [|lo [|hi' ?]]; try discriminate.
    cbn in Hn. injection Hn as ->.
    rewrite ParseDateTimeZone_format by assumption.
    destruct (parseClock (" " ++ hi)) as [[[[[? ?] ?] ?] ?]|];
      [discriminate|reflexivity].
Qed.


End HourFacts.

(** * The dates of a history request *)

Module DateFacts.
Import GoStrings Store GoTime Handlers Calendar History.
Import TimeFacts ParseFacts HourFacts.

Lemma digitVal_range c : isDigitChar c = true -> 0 <= digitVal c <= 9.
Proof.
  unfold isDigitChar, digitVal. rewrite andb_true_iff, !Z.leb_le. lia.
Qed.

Lemma leadingInt_bound s : forall x q,
  leadingInt s x = (q, "") ->
  x * 10 ^ Z.of_nat (String.length s) <= q
  < (x + 1) * 10 ^ Z.of_nat (String.length s).
Proof.
  induction s as [|c s IH]; intros x q H; cbn [leadingInt] in H.
  - injection H as <-. cbn. lia.
  - destruct (isDigitChar c) eqn:E; [|discriminate].
    apply IH in H. apply digitVal_range in E.
    cbn [String.length]. rewrite Nat2Z.inj_succ, Z.pow_succ_r by lia.
    assert (0 < 10 ^ Z.of_nat (String.length s)) by (apply Z.pow_pos_nonneg; lia).
    nia.
Qed.

(** A year of four digits is between 0 and 9999. *)
Lemma atoi_year c0 s y :
  isDigitChar c0 = true -> String.length s = 3%nat ->
  atoi (String c0 s) = Some y -> 0 <= y <= 9999.
Proof.
  intros Hc Hl H. unfold atoi in H.
  assert (Ascii.eqb c0 "-" = false /\ Ascii.eqb c0 "+" = false) as [E1 E2].
  { split; apply Ascii.eqb_neq; intros ->; discriminate. }
  rewrite E1, E2 in H.
  destruct (leadingInt (String c0 s) 0) as [q rem] eqn:E.
  destruct rem; [|discriminate]. injection H as <-.
  apply leadingInt_bound in E. cbn [String.length] in E. rewrite Hl in E.
  change (10 ^ Z.of_nat 4) with 10000 in E. lia.
Qed.

Lemma parseYMD_range value y m d rest :
  parseYMD value = Some (y, m, d, rest) -> 0 <= y <= 9999 /\ 1 <= m <= 12.
Proof.
  intros H.
  destruct value as [|c0 [|c1 [|c2 [|c3 tail]]]];
    try (unfold parseYMD in H;
         cbn [isDigit String.get String.length Nat.leb] in H;
         rewrite ?andb_false_r in H; discriminate H).
  rewrite parseYMD_head in H.
  destruct (isDigitChar c0) eqn:E0; [|discriminate]. cbn [guard bind] in H.
  destruct (atoi _) as [year|] eqn:Ea; [|discriminate]. cbn [bind] in H.
  apply atoi_year in Ea; [|assumption|reflexivity].
  destruct (skip tail "-" false) as [v1|]; [|discriminate]. cbn [bind] in H.
  destruct (getnum v1 true) as [[month v2]|]; [|discriminate]. cbn [bind] in H.
  destruct (Z.leb_spec month 0); [discriminate|].
  destruct (Z.ltb_spec 12 month); [discriminate|].
  cbn [orb negb guard bind] in H.
  destruct (skip v2 "-" false) as [v3|]; [|discriminate]. cbn [bind] in H.
  destruct (getnum v3 true) as [[day v4]|]; [|discriminate].
  cbn [bind] in H.
  injection H as <- <- <- <-. lia.
Qed.

(** The day of the year of a date of the calendar. *)
Lemma yday_range y m d :
  1 <= m <= 12 -> 1 <= d <= daysIn m y ->
  0 <= daysOf y m d - daysSinceEpoch y
  <= 364 + (if isLeap y then 1 else 0).
Proof.
  intros Hm Hd. unfold daysOf. revert Hd. unfold daysIn.
  destruct (isLeap y); among m 1%nat 12%nat; table; cbn [andb]; tests.
Qed.

(** A date that [Parse] accepts is the first instant of a day between
    the years 0 and 9999. *)
Lemma ParseDate_day value t :
  ParseDate value = Some t ->
  exists k, firstDay <= k <= lastDay /\ t = k * (24 * Hour).
Proof.
  unfold ParseDate. intros H.
  destruct (parseYMD value) as [[[[y m] d] rest]|] eqn:E; [|discriminate].
  cbn [bind] in H.
  destruct (guard _); [|discriminate]. cbn [bind] in H.
  destruct (dayInRange y m d) eqn:Ed; [|discriminate]. cbn [guard bind] in H.
  injection H as <-.
  apply parseYMD_range in E. destruct E as [Hy Hm].
  unfold dayInRange in Ed. rewrite negb_true_iff, orb_false_iff in Ed.
  destruct Ed as [Ed1 Ed2].
  apply Z.ltb_ge in Ed1. rewrite Z.gtb_ltb in Ed2. apply Z.ltb_ge in Ed2.
  exists (daysOf y m d). split.
  - pose proof (yday_range y m d Hm ltac:(lia)) as Hyd.
    assert (Hl : isLeap y = true \/ isLeap y = false) by (destruct (isLeap y); auto).
    rewrite isLeap_spec in Hl at 1.
    assert (Hl' : (y mod 4 = 0 /\ (y mod 100 <> 0 \/ y mod 400 = 0))
                  \/ (daysOf y m d - daysSinceEpoch y <= 364)).
    { destruct Hl as [Hl|Hl]; [left; exact Hl | right; rewrite Hl in Hyd; lia]. }
    assert (Hu : daysOf y m d - daysSinceEpoch y <= 365)
      by (destruct (isLeap y); lia).
    destruct Hyd as [Hlo _]. clear Hl.
    revert Hlo Hu Hl'. generalize (daysOf y m d). intros n.
    unfold firstDay, lastDay, daysSinceEpoch, daysPer400Years,
      daysPer100Years, daysPer4Years. cbv zeta. zdiv.
  - unfold UTC. rewrite Date_FixedZone by lia.
    unfold secondsPerDay, Hour, Minute, Second. lia.
Qed.

Lemma ParseDate_dayNumber value t :
  ParseDate value = Some t -> firstDay <= dayNumber t <= lastDay.
Proof.
  intros H. apply ParseDate_day in H. destruct H as (k & Hk & ->).
  rewrite dayNumber_midnight. exact Hk.
Qed.

End DateFacts.

(** * The history handler and the auth middleware *)

Module HandlerClaims.
Import GoStrings Store GoTime Handlers Calendar History.
Import TimeFacts ParseFacts HistoryFacts HourFacts DateFacts.

(** C3: from 2023-01-01 until 2023-01-03, without hours, in UTC, at
    2023-01-02 10:00:00 UTC, the handler asks for two windows: the whole
    of January 1 (00:00:00 to 23:59:59) and January 2 from 00:00:00 to
    10:00:00, the current instant; the pass for January 3 leaves the
    date loop without a window, its start being in the future. *)
Theorem history_stops_at_now :
  forall (app : App) (rm : Room) (id : string) (s : sess)
         (typ csv : string) (l : list DateFilter),
    let now := Date 2023 1 2 10 0 0 0 UTC in
    let nowStart := Truncate now (24 * Hour) in
    let nowEnd := Add nowStart (23 * Hour + 59 * Minute + 59 * Second) in
    handleChatHistory app now (mkReqCtx (Some rm) id s)
      (mkReqChatHistory "2023-01-01" "2023-01-03" typ "" "UTC" csv)
    = GetChatHistory (ID rm)
        [ mkDateFilter (Date 2023 1 1 0 0 0 0 UTC)
                       (Date 2023 1 1 23 59 59 0 UTC);
          mkDateFilter (Date 2023 1 2 0 0 0 0 UTC)
                       (Date 2023 1 2 10 0 0 0 UTC) ]
    /\ dayWindow UTC now nowStart nowEnd (Date 2023 1 3 0 0 0 0 UTC) l
       = Break l.
Proof.
  intros app rm id s typ csv l. split; vm_compute; reflexivity.
Qed.


(** The same on every day of the years 0 to 9999, at every instant. *)
Lemma hours_without_zone_never_read :
  forall (now i : Time) (l : list DateFilter),
    firstDay <= dayNumber i <= lastDay ->
    hourWindow now i "09:00:00-08:00:00" l
    = Return StatusBadRequest "Error parsing hours for date".
Proof.
  intros now i l Hi. apply hourWindow_unparsable; [exact Hi|].
  left. vm_compute. reflexivity.
Qed.



(** The whole handler on an overnight range: one day asked for, one
    window into the next day. *)
Lemma overnight_history :
  handleChatHistory bareApp (Date 2023 1 5 0 0 0 0 UTC) (roomCtx "r")
    (historyOf "2023-01-01" "2023-01-01" "09:00:00 +0000-08:00:00 +0000")
  = GetChatHistory "r"
      [mkDateFilter (Date 2023 1 1 9 0 0 0 UTC) (Date 2023 1 2 8 0 0 0 UTC)].
Proof. vm_compute. reflexivity. Qed.

(** C6: every window the handler hands to the message cache has its
    start and its end not after the current instant. *)
Theorem windows_hold_no_future :
  forall (app : App) (now : Time) (ctx : reqCtx) (req : reqChatHistory)
         (id : string) (dateFilters : list DateFilter),
    handleChatHistory app now ctx req = GetChatHistory id dateFilters ->
    Forall (notAfter now) dateFilters.
Proof.
  intros app now ctx req id l. unfold handleChatHistory.
  destruct (room ctx); [|discriminate].
  destruct (ParseDate (From req)) as [start|]; [|discriminate].
  destruct (ParseDate (Until req)) as [stop|]; [|discriminate].
  destruct (After start stop); [discriminate|].
  match goal with
  | |- context [dateLoop ?f ?a ?b ?c ?d ?e ?g ?h ?i ?j] =>
      pose proof (dateLoop_notAfter a b c d e g h f i j (Forall_nil _)) as H;
      destruct (dateLoop f a b c d e g h i j)
  end; try discriminate.
  intros E. injection E as <- <-.
  apply SliceStable_Forall, H.
Qed.

Lemma windows_hold_no_future_witness :
  handleChatHistory bareApp (Date 2023 1 2 10 0 0 0 UTC) (roomCtx "r")
    (historyOf "2023-01-01" "2023-01-03" "")
  = GetChatHistory "r"
      [ mkDateFilter (Date 2023 1 1 0 0 0 0 UTC)
                     (Date 2023 1 1 23 59 59 0 UTC);
        mkDateFilter (Date 2023 1 2 0 0 0 0 UTC)
                     (Date 2023 1 2 10 0 0 0 UTC) ]
  /\ Forall (notAfter (Date 2023 1 2 10 0 0 0 UTC))
      [ mkDateFilter (Date 2023 1 1 0 0 0 0 UTC)
                     (Date 2023 1 1 23 59 59 0 UTC);
        mkDateFilter (Date 2023 1 2 0 0 0 0 UTC)
                     (Date 2023 1 2 10 0 0 0 UTC) ].
Proof.
  split; [vm_compute; reflexivity|].
  apply (windows_hold_no_future bareApp (Date 2023 1 2 10 0 0 0 UTC)
           (roomCtx "r") (historyOf "2023-01-01" "2023-01-03" "") "r").
  vm_compute. reflexivity.
Defined.


Lemma hourLoop_rejects now i pre bad post :
  firstDay <= dayNumber i <= lastDay ->
  (forall h, In h pre ->
     forall l, exists w, hourWindow now i h l = Continue (l ++ [w])) ->
  badRange bad ->
  forall l,
    hourLoop now i (pre ++ bad :: post)%list l
    = Return StatusBadRequest "Error parsing hours for date".
Proof.
  intros Hi Hpre Hbad.
  induction pre as [|h pre IH]; intros l; cbn [app hourLoop].
  - rewrite hourWindow_unparsable by assumption. reflexivity.
  - destruct (Hpre h (or_introl eq_refl) l) as [w ->].
    apply IH. intros h' Hh'. apply Hpre. right. exact Hh'.
Qed.

(** C7, as the spec states it, fails: the second hour range of this
    request has a component that does not read, but the first range
    starts in the future and ends the date loop before the second is
    looked at; the handler goes on to query the message cache. *)
Lemma unparsable_range_after_break :
  let now := Date 2023 1 5 10 0 0 0 UTC in
  let hours := "09:00:00 +0000-10:00:00 +0000,garbage" in
  Split ","%char hours = ["09:00:00 +0000-10:00:00 +0000"; "garbage"]
  /\ ParseDateTimeZone ("2023-01-06" ++ " " ++ "garbage") = None
  /\ handleChatHistory bareApp now (roomCtx "r")
       (historyOf "2023-01-06" "2023-01-07" hours)
     = GetChatHistory "r" [].
Proof. cbv zeta. repeat split; vm_compute; reflexivity. Qed.

(** C7, amended: when the loop over the hour ranges of the first day
    reaches a range with a component that does not read (every range
    before it yields a window), the request ends with the validation
    error; no query is issued and the windows of the earlier ranges are
    dropped. *)
Theorem unparsable_range_rejected :
  forall (app : App) (now : Time) (ctx : reqCtx) (req : reqChatHistory)
         (rm : Room) (start stop : Time) (pre post : list string)
         (bad : string),
    room ctx = Some rm ->
    ParseDate (From req) = Some start ->
    ParseDate (Until req) = Some stop ->
    start <= stop ->
    Hours req <> "" ->
    Split ","%char (Hours req) = (pre ++ bad :: post)%list ->
    (forall h, In h pre ->
       forall l, exists w, hourWindow now start h l = Continue (l ++ [w])) ->
    badRange bad ->
    handleChatHistory app now ctx req
    = Respond StatusBadRequest "Error parsing hours for date".
Proof.
  intros app now ctx req rm start stop pre post bad
    Hroom Hfrom Huntil Hle Hhours Hsplit Hpre Hbad.
  unfold handleChatHistory. rewrite Hroom, Hfrom, Huntil.
  unfold After. destruct (Z.gtb_spec start stop); [lia|].
  replace (passes start stop)
    with (S (S (Z.to_nat ((stop - start) / (24 * Hour)))))
    by (unfold passes; lia).
  cbn [dateLoop]. unfold After.
  destruct (Z.gtb_spec start stop); [lia|].
  rewrite Hsplit.
  assert (E1 : Nat.leb (List.length (pre ++ bad :: post)%list) 0 = false).
  { rewrite length_app. cbn [List.length]. apply Nat.leb_gt. lia. }
  assert (E2 : String.eqb (Hours req) "" = false)
    by (apply String.eqb_neq; exact Hhours).
  rewrite E1, E2. cbn [orb].
  rewrite hourLoop_rejects;
    [reflexivity | eapply ParseDate_dayNumber; eassumption | assumption
    | assumption].
Qed.

Lemma unparsable_range_rejected_witness :
  handleChatHistory bareApp (Date 2023 1 5 10 0 0 0 UTC) (roomCtx "r")
    (historyOf "2023-01-01" "2023-01-02"
       "09:00:00 +0000-10:00:00 +0000,garbage-11:00:00 +0000")
  = Respond StatusBadRequest "Error parsing hours for date".
Proof.
  apply (unparsable_range_rejected bareApp (Date 2023 1 5 10 0 0 0 UTC)
           (roomCtx "r")
           (historyOf "2023-01-01" "2023-01-02"
              "09:00:00 +0000-10:00:00 +0000,garbage-11:00:00 +0000")
           (mkRoom "r" "r")
           (Date 2023 1 1 0 0 0 0 UTC) (Date 2023 1 2 0 0 0 0 UTC)
           ["09:00:00 +0000-10:00:00 +0000"] []
           "garbage-11:00:00 +0000").
  - reflexivity.
  - vm_compute. reflexivity.
  - vm_compute. reflexivity.
  - vm_compute. discriminate.
  - discriminate.
  - vm_compute. reflexivity.
  - intros h [<-|[]] l.
    exists (mkDateFilter (Date 2023 1 1 9 0 0 0 UTC)
                         (Date 2023 1 1 10 0 0 0 UTC)).
    vm_compute. reflexivity.
  - left. vm_compute. reflexivity.
Defined.

(** C9: a request to an authenticated route that carries its session
    only in the [session_id] header makes [wrap] read the value of a
    nil cookie: the middleware panics before it looks the session up,
    and no request ever authenticates with the header's session. *)
Theorem header_session_dereferences_nil_cookie :
  forall (app : App) (opts : Z) (r : Request),
    Z.land opts hasAuth <> 0 ->
    ck r = None ->
    querySessionID r = "" ->
    headerSessionID r <> "" ->
    wrap app opts r = NilDereference
    /\ (forall r' token, sessionToken r' = Next token ->
          token = querySessionID r' \/ ck r' = Some token).
Proof.
  intros app opts r Hopts Hck Hq Hh. split.
  - unfold wrap, sessionToken. rewrite Hck, Hq.
    apply Z.eqb_neq in Hopts. rewrite Hopts.
    apply String.eqb_neq in Hh. unfold nonEmpty. rewrite Hh.
    reflexivity.
  - intros r' token. unfold sessionToken.
    destruct (negb (ckHasValue (ck r')) && nonEmpty (querySessionID r')).
    + intros E. injection E as <-. left. reflexivity.
    + destruct (ck r'); [|discriminate].
      intros E. injection E as <-. right. reflexivity.
Qed.

Lemma header_session_dereferences_nil_cookie_witness :
  wrap bareApp hasAuth (mkRequest None "" "0123456789abcdef" "lobby")
  = NilDereference.
Proof.
  apply (header_session_dereferences_nil_cookie bareApp hasAuth
           (mkRequest None "" "0123456789abcdef" "lobby")).
  - vm_compute. discriminate.
  - reflexivity.
  - reflexivity.
  - discriminate.
Defined.

(** C10: when [from] and [until] both read as dates and [from] is the
    later one, the handler answers with a validation error (status 400)
    and neither builds a window nor queries the message cache. *)
Theorem from_after_until_rejected :
  forall (app : App) (now : Time) (ctx : reqCtx) (req : reqChatHistory)
         (start stop : Time),
    ParseDate (From req) = Some start ->
    ParseDate (Until req) = Some stop ->
    stop < start ->
    handleChatHistory app now ctx req
    = Respond StatusBadRequest
        (match room ctx with
         | Some _ => "date of  from can't be after until"
         | None => "room is invalid or has expired"
         end).
Proof.
  intros app now ctx req start stop Hfrom Huntil Hlt.
  unfold handleChatHistory.
  destruct (room ctx); [|reflexivity].
  rewrite Hfrom, Huntil. unfold After.
  destruct (Z.gtb_spec start stop); [reflexivity|lia].
Qed.

Lemma from_after_until_rejected_witness :
  handleChatHistory bareApp (Date 2023 1 5 10 0 0 0 UTC) (roomCtx "r")
    (historyOf "2023-01-03" "2023-01-01" "")
  = Respond StatusBadRequest "date of  from can't be after until".
Proof.
  apply (from_after_until_rejected bareApp (Date 2023 1 5 10 0 0 0 UTC)
           (roomCtx "r") (historyOf "2023-01-03" "2023-01-01" "")
           (Date 2023 1 3 0 0 0 0 UTC) (Date 2023 1 1 0 0 0 0 UTC)).
  - vm_compute. reflexivity.
  - vm_compute. reflexivity.
  - vm_compute. reflexivity.
Defined.

End HandlerClaims.

(** * Facts about the aggregation pipelines *)

Module MongoFacts.
Import Store Mongo Cache.

Lemma decode_id docs : decode docs = docs.
Proof.
  unfold decode. induction docs as [|[t r p] docs IH]; cbn; [reflexivity|].
  now rewrite IH.
Qed.

Lemma In_firstn (A : Type) (a : A) n l : In a (firstn n l) -> In a l.
Proof.
  revert n. induction l as [|x l IH]; intros [|n]; cbn; try tauto.
  intros [H|H]; [left; exact H | right; eapply IH; exact H].
Qed.

Lemma StronglySorted_impl (A : Type) (R R' : A -> A -> Prop) l :
  (forall a b, R a b -> R' a b) ->
  StronglySorted R l -> StronglySorted R' l.
Proof.
  intros HR Hl. induction Hl as [|x l Hl IH Hx]; constructor;
    [exact IH|].
  eapply Forall_impl; [|exact Hx]. intros a. apply HR.
Qed.

Section Sorting.

Variable le : GoTime.Time -> GoTime.Time -> bool.
Hypothesis le_total : forall a b, le a b = true \/ le b a = true.
Hypothesis le_trans :
  forall a b c, le a b = true -> le b c = true -> le a c = true.

Lemma insert_perm m l : Permutation (insert le m l) (m :: l).
Proof.
  induction l as [|x l IH]; cbn [insert]; [reflexivity|].
  destruct (le (Time m) (Time x)); [reflexivity|].
  rewrite IH. apply perm_swap.
Qed.

Lemma sortBy_perm l : Permutation (sortBy le l) l.
Proof.
  induction l as [|x l IH]; cbn [sortBy]; [reflexivity|].
  rewrite insert_perm. now constructor.
Qed.

Lemma insert_sorted m l :
  StronglySorted (ordered le) l -> StronglySorted (ordered le) (insert le m l).
Proof.
  intros Hl. induction Hl as [|x l Hl IH Hx]; cbn [insert].
  - constructor; constructor.
  - destruct (le (Time m) (Time x)) eqn:E.
    + constructor; [constructor; assumption|].
      constructor; [exact E|].
      eapply Forall_impl; [|exact Hx].
      intros a Ha. unfold ordered in *. eapply le_trans; eassumption.
    + constructor; [exact IH|].
      apply (Permutation_Forall (Permutation_sym (insert_perm m l))).
      constructor; [|exact Hx].
      unfold ordered. destruct (le_total (Time m) (Time x)); congruence.
Qed.

Lemma sortBy_sorted l : StronglySorted (ordered le) (sortBy le l).
Proof.
  induction l as [|x l IH]; cbn [sortBy]; [constructor|].
  apply insert_sorted, IH.
Qed.

Lemma firstn_sorted n l :
  StronglySorted (ordered le) l -> StronglySorted (ordered le) (firstn n l).
Proof.
  intros Hl. revert n.
  induction Hl as [|x l Hl IH Hx]; intros [|n]; cbn [firstn];
    try constructor.
  - apply IH.
  - rewrite Forall_forall in *. intros a Ha. apply Hx.
    eapply In_firstn. exact Ha.
Qed.

End Sorting.

Lemma leb_total a b : (a <=? b) = true \/ (b <=? a) = true.
Proof. rewrite !Z.leb_le. lia. Qed.

Lemma leb_trans a b c :
  (a <=? b) = true -> (b <=? c) = true -> (a <=? c) = true.
Proof. rewrite !Z.leb_le. lia. Qed.

Lemma geb_total a b : (a >=? b) = true \/ (b >=? a) = true.
Proof. rewrite !Z.geb_le. lia. Qed.

Lemma geb_trans a b c :
  (a >=? b) = true -> (b >=? c) = true -> (a >=? c) = true.
Proof. rewrite !Z.geb_le. lia. Qed.

Lemma sortBy_leb_ascending l : ascending (sortBy Z.leb l).
Proof.
  unfold ascending.
  eapply StronglySorted_impl;
    [| apply (sortBy_sorted Z.leb leb_total leb_trans)].
  intros a b. unfold ordered. apply Z.leb_le.
Qed.

Lemma sortBy_geb_descending l : descending (sortBy Z.geb l).
Proof.
  unfold descending.
  eapply StronglySorted_impl;
    [| apply (sortBy_sorted Z.geb geb_total geb_trans)].
  intros a b. unfold ordered. apply Z.geb_le.
Qed.

Lemma firstn_descending n l : descending l -> descending (firstn n l).
Proof.
  unfold descending. intros H.
  eapply StronglySorted_impl;
    [| apply (firstn_sorted Z.geb n l);
       eapply StronglySorted_impl; [| exact H] ].
  - intros a b. unfold ordered. apply Z.geb_le.
  - intros a b. unfold ordered. apply Z.geb_le.
Qed.

Lemma inRange_inside f t :
  bounded f = true ->
  inRange (mkIdRange (bound (Start f)) (bound (End f))) t = inside f t.
Proof.
  unfold bounded, inRange, inside, bound. cbn [gte lte].
  destruct (GoTime.IsZero (Start f)), (GoTime.IsZero (End f));
    cbn; try discriminate; intros _;
    rewrite ?andb_true_r; reflexivity.
Qed.

End MongoFacts.

(** * The message cache *)

Module CacheClaims.
Import Store Mongo Cache MongoFacts.

Lemma dateFilters_wellFormed fs :
  forallb wellFormed (MongoVariadic.dateFilters fs) = true.
Proof.
  unfold MongoVariadic.dateFilters.
  induction fs as [|f fs IH]; cbn [flat_map]; [reflexivity|].
  destruct (_ || _); cbn; exact IH.
Qed.

Lemma dateFilters_nil fs :
  MongoVariadic.dateFilters fs = [] <-> existsb bounded fs = false.
Proof.
  unfold MongoVariadic.dateFilters.
  induction fs as [|f fs IH]; cbn [flat_map existsb]; [tauto|].
  unfold bounded at 1.
  destruct (negb (GoTime.IsZero (Start f)) || negb (GoTime.IsZero (End f)));
    cbn; [split; discriminate | exact IH].
Qed.

Lemma dateFilters_matches fs m :
  existsb (fun q => matches q m) (MongoVariadic.dateFilters fs)
  = existsb (fun f => bounded f && inside f (Time m)) fs.
Proof.
  unfold MongoVariadic.dateFilters.
  induction fs as [|f fs IH]; cbn [flat_map existsb]; [reflexivity|].
  destruct (bounded f) eqn:B; unfold bounded in B; rewrite B.
  - cbn [app existsb matches andb]. rewrite inRange_inside by exact B.
    now rewrite IH.
  - cbn [app andb orb]. exact IH.
Qed.

(** What the version with a list of windows returns. *)
Lemma variadic_result docs roomID limit fs :
  MongoVariadic.GetMessageCache docs roomID limit fs
  = if existsb bounded fs then
      let newestFirst := sortBy Z.geb (filter (inSomeWindow roomID fs) docs) in
      Ok (if limit >? 0 then firstn (Z.to_nat limit) newestFirst
          else newestFirst)
    else Err "$and/$or/$nor must be a nonempty array".
Proof.
  unfold MongoVariadic.GetMessageCache, MongoVariadic.pipelineQuery.
  cbn [app Aggregate stage wellFormed forallb].
  destruct (existsb bounded fs) eqn:B.
  - destruct (MongoVariadic.dateFilters fs) as [|q qs] eqn:E.
    + apply dateFilters_nil in E. congruence.
    + rewrite <- E, dateFilters_wellFormed. cbn [andb].
      change (-1 =? 1) with false. change (-1 =? -1) with true. cbv iota.
      assert (F : filter (matches (And [RoomIs roomID;
                                        Or (MongoVariadic.dateFilters fs)]))
                    docs
                  = filter (inSomeWindow roomID fs) docs).
      { apply filter_ext. intros m. cbn [matches forallb].
        rewrite dateFilters_matches, andb_true_r. reflexivity. }
      rewrite F.
      destruct (Z.gtb_spec limit 0) as [Hl|Hl]; cbn [Aggregate stage].
      * destruct (Z.ltb_spec 0 limit); [|lia].
        now rewrite decode_id.
      * now rewrite decode_id.
  - apply dateFilters_nil in B. rewrite B. reflexivity.
Qed.

(** What the version with one window returns. *)
Lemma single_result docs roomID limit f :
  MongoSingle.GetMessageCache docs roomID limit f
  = let newestFirst := sortBy Z.geb (filter (inWindow roomID f) docs) in
    Ok (sortBy Z.leb (if limit >? 0 then firstn (Z.to_nat limit) newestFirst
                      else newestFirst)).
Proof.
  unfold MongoSingle.GetMessageCache, MongoSingle.pipelineQuery.
  assert (W : wellFormed (MongoSingle.matchQuery roomID f) = true).
  { unfold MongoSingle.matchQuery. destruct (_ || _); reflexivity. }
  assert (F : filter (matches (MongoSingle.matchQuery roomID f)) docs
              = filter (inWindow roomID f) docs).
  { apply filter_ext. intros m. unfold MongoSingle.matchQuery, inWindow.
    destruct (bounded f) eqn:B; unfold bounded in B; rewrite B;
      cbn [app matches forallb].
    - rewrite inRange_inside by exact B. now rewrite andb_true_r.
    - rewrite andb_true_r. unfold inside.
      apply orb_false_iff in B. destruct B as [B1 B2].
      apply negb_false_iff in B1, B2. rewrite B1, B2. cbn.
      now rewrite andb_true_r. }
  cbn [app Aggregate stage]. rewrite W, F.
  change (-1 =? 1) with false. change (-1 =? -1) with true. cbv iota.
  destruct (Z.gtb_spec limit 0) as [Hl|Hl]; cbn [app Aggregate stage].
  - destruct (Z.ltb_spec 0 limit); [|lia].
    change (1 =? 1) with true. cbv iota. now rewrite decode_id.
  - change (1 =? 1) with true. cbv iota. now rewrite decode_id.
Qed.


(** C1: with limit 0 and no window, the version of the query that takes
    a list of windows sends MongoDB an empty [$or]; the aggregation is
    rejected and the caller gets the error instead of the records of
    the room. *)
Theorem no_window_query_fails :
  forall (docs : list Message) (roomID : string),
    MongoVariadic.GetMessageCache docs roomID 0 []
    = Err "$and/$or/$nor must be a nonempty array".
Proof. intros docs roomID. rewrite variadic_result. reflexivity. Qed.

(** The version with one window does what C1 asks for: with limit 0 and
    the zero window it returns the records of the room, each once,
    oldest first. *)
Lemma single_window_returns_room :
  forall (docs : list Message) (roomID : string),
  exists rs,
    MongoSingle.GetMessageCache docs roomID 0 (mkDateFilter 0 0) = Ok rs
    /\ Permutation rs (filter (inRoom roomID) docs)
    /\ ascending rs.
Proof.
  intros docs roomID. rewrite single_result. cbv zeta.
  change (0 >? 0) with false. cbv iota.
  eexists. split; [reflexivity|]. split.
  - rewrite (sortBy_perm Z.leb), (sortBy_perm Z.geb).
    replace (filter (inWindow roomID (mkDateFilter 0 0)) docs)
      with (filter (inRoom roomID) docs); [reflexivity|].
    apply filter_ext. intros m. unfold inWindow, inside. cbn.
    now rewrite andb_true_r.
  - apply sortBy_leb_ascending.
Qed.

(** C2: with limit 2 and the window of 2023-01-01, the version with a
    list of windows returns the two most recent records of the room
    newest first: the pipeline ends after [$limit], without the second
    [$sort]. *)
Theorem last_records_come_newest_first :
  MongoVariadic.GetMessageCache sampleDocs "r" 2 [newYearsDay]
  = Ok [at11; at10]
  /\ Time at10 < Time at11.
Proof. split; vm_compute; reflexivity. Qed.

(** With a positive limit the version with a list of windows returns
    its records newest first, whatever the records and the windows. *)
Lemma variadic_newest_first :
  forall (docs : list Message) (roomID : string) (limit : Z)
         (fs : list DateFilter) (rs : list Message),
    MongoVariadic.GetMessageCache docs roomID limit fs = Ok rs ->
    descending rs.
Proof.
  intros docs roomID limit fs rs. rewrite variadic_result.
  destruct (existsb bounded fs); [|discriminate].
  cbv zeta. intros E. injection E as <-.
  destruct (limit >? 0);
    [apply firstn_descending|]; apply sortBy_geb_descending.
Qed.

(** The version with one window does what C2 asks for: the [limit] most
    recent records of the window, oldest first. *)
Lemma single_window_last_records :
  forall (docs : list Message) (roomID : string) (limit : Z)
         (f : DateFilter),
    0 < limit ->
    exists rs,
      MongoSingle.GetMessageCache docs roomID limit f = Ok rs
      /\ Permutation rs
           (firstn (Z.to_nat limit)
              (sortBy Z.geb (filter (inWindow roomID f) docs)))
      /\ ascending rs.
Proof.
  intros docs roomID limit f Hl. rewrite single_result. cbv zeta.
  destruct (Z.gtb_spec limit 0); [|lia].
  eexists. split; [reflexivity|]. split.
  - apply sortBy_perm.
  - apply sortBy_leb_ascending.
Qed.




End CacheClaims.

(** * The order of broadcast *)

Module RoomClaims.
Import Room Broadcast.
Local Open Scope list_scope.

Section Policy.

Variable capacity : nat.
Variable echo : bool.

Lemma inOrder_init : inOrder echo (mkState (fun _ => None) []).
Proof. intros id p H. discriminate H. Qed.

Lemma skipn_snoc (n : nat) (l : list Message) (m : Message) :
  (n <= List.length l)%nat -> skipn n (l ++ [m]) = skipn n l ++ [m].
Proof.
  intros H. rewrite skipn_app.
  replace (n - List.length l)%nat with 0%nat by lia. reflexivity.
Qed.

Lemma inOrder_step s e : inOrder echo s -> inOrder echo (step capacity echo s e).
Proof.
  intros Inv id p. destruct e as [id0 | m | id0 | id0]; cbn [step].
  - cbn [peers received]. unfold update.
    destruct (String.eqb id id0).
    + intros H. injection H as <-. cbn [since]. split; [lia|].
      rewrite skipn_all. reflexivity.
    + apply Inv.
  - cbn [peers received].
    destruct (peers s id) as [q|] eqn:E; [|discriminate].
    destruct (Inv id q E) as [Hn Hq].
    unfold fanOut. destruct (addressed echo id m) eqn:A.
    + destruct (_ <? _)%nat; [|discriminate].
      intros H. injection H as <-. cbn [since]. split.
      * rewrite length_app. lia.
      * rewrite skipn_snoc by exact Hn.
        rewrite filter_app. cbn [filter]. rewrite A, <- Hq.
        unfold observed. cbn [written dataQ].
        now rewrite app_assoc.
    + intros H. injection H as <-. split.
      * rewrite length_app. lia.
      * rewrite skipn_snoc by exact Hn.
        rewrite filter_app. cbn [filter]. rewrite A, app_nil_r.
        exact Hq.
  - destruct (peers s id0) as [[[|m q] w n]|] eqn:E; try apply Inv.
    cbn [peers received]. unfold update.
    destruct (String.eqb id id0) eqn:Eid; [|apply Inv].
    intros H. injection H as <-. cbn [since].
    destruct (Inv id0 _ E) as [Hn Hq]. cbn [since] in Hn, Hq.
    apply String.eqb_eq in Eid. subst id0. split; [exact Hn|].
    rewrite <- Hq. unfold observed. cbn [written dataQ].
    now rewrite <- app_assoc.
  - cbn [peers received]. unfold update.
    destruct (String.eqb id id0); [discriminate | apply Inv].
Qed.

Lemma inOrder_run es : forall s,
  inOrder echo s -> inOrder echo (run capacity echo s es).
Proof.
  unfold run. induction es as [|e es IH]; intros s Inv; cbn [fold_left].
  - exact Inv.
  - apply IH, inOrder_step, Inv.
Qed.

Lemma inOrder_opened ids : inOrder echo (opened capacity echo ids).
Proof. unfold opened. apply inOrder_run, inOrder_init. Qed.

Lemma run_AddPeer_received ids : forall s,
  received (run capacity echo s (map AddPeer ids)) = received s.
Proof.
  unfold run. induction ids as [|id ids IH]; intros s; cbn; [reflexivity|].
  now rewrite IH.
Qed.

(** The peers of a room that has just been opened were registered
    before any message. *)
Lemma opened_since ids id p :
  peers (opened capacity echo ids) id = Some p -> since p = 0%nat.
Proof.
  unfold opened. intros H.
  destruct (inOrder_run (map AddPeer ids) _ inOrder_init id p H) as [Hn _].
  rewrite run_AddPeer_received in Hn. cbn in Hn. lia.
Qed.

Lemma filter_comm (f g : Message -> bool) l :
  filter f (filter g l) = filter g (filter f l).
Proof.
  induction l as [|x l IH]; cbn [filter]; [reflexivity|].
  destruct (f x) eqn:F, (g x) eqn:G; cbn [filter];
    rewrite ?F, ?G, IH; reflexivity.
Qed.

(** C8: after any run of a room, a peer that has been registered
    since before the first message and is still registered has
    observed every message the loop received (without its own, when
    the sender gets no echo), in the order in which the loop received
    them; two such peers have observed the messages addressed to both
    in the same order. *)
Theorem survivors_observe_loop_order :
  forall (ids : list PeerID) (es : list Event)
         (id1 id2 : PeerID) (p1 p2 : Peer),
    let s := run capacity echo (opened capacity echo ids) es in
    peers s id1 = Some p1 -> since p1 = 0%nat ->
    peers s id2 = Some p2 -> since p2 = 0%nat ->
    observed p1 = filter (addressed echo id1) (received s)
    /\ observed p2 = filter (addressed echo id2) (received s)
    /\ filter (addressed echo id2) (observed p1)
       = filter (addressed echo id1) (observed p2).
Proof.
  intros ids es id1 id2 p1 p2 s Hp1 H1 Hp2 H2.
  destruct (inOrder_run es _ (inOrder_opened ids) id1 p1 Hp1) as [_ E1].
  destruct (inOrder_run es _ (inOrder_opened ids) id2 p2 Hp2) as [_ E2].
  rewrite H1 in E1. rewrite H2 in E2. cbn [skipn] in E1, E2.
  fold s in E1, E2.
  split; [exact E1|]. split; [exact E2|].
  rewrite E1, E2. apply filter_comm.
Qed.

End Policy.

Lemma survivors_observe_loop_order_witness :
  let s := run 8 false (opened 8 false ["a"; "b"; "c"]) chatter in
  let pb := mkPeer [say "a" Byte.x31; say "a" Byte.x33; say "c" Byte.x34]
                   [] 0 in
  let pc := mkPeer [say "b" Byte.x32; say "a" Byte.x33]
                   [say "a" Byte.x31] 0 in
  peers s "b" = Some pb /\ peers s "c" = Some pc
  /\ observed pb = filter (addressed false "b") (received s)
  /\ observed pc = filter (addressed false "c") (received s)
  /\ filter (addressed false "c") (observed pb)
     = filter (addressed false "b") (observed pc).
Proof.
  cbv zeta. split; [vm_compute; reflexivity|].
  split; [vm_compute; reflexivity|].
  apply (survivors_observe_loop_order 8 false ["a"; "b"; "c"] chatter
           "b" "c").
  - vm_compute. reflexivity.
  - reflexivity.
  - vm_compute. reflexivity.
  - reflexivity.
Defined.

End RoomClaims.

(** * More on the message cache *)

Module CacheExtras.
Import Store Mongo Cache CacheTerms MongoFacts CacheClaims.
Local Open Scope list_scope.








Lemma existsb_filter (A : Type) (p q : A -> bool) l :
  existsb (fun x => p x && q x) l = existsb q (filter p l).
Proof.
  induction l as [|x l IH]; cbn [existsb filter]; [reflexivity|].
  destruct (p x); cbn [andb existsb orb]; now rewrite IH.
Qed.

Lemma filter_bounded_all fs : forallb bounded (filter bounded fs) = true.
Proof.
  induction fs as [|f fs IH]; cbn [filter]; [reflexivity|].
  destruct (bounded f) eqn:B; cbn [forallb]; [rewrite B|]; exact IH.
Qed.

Lemma existsb_all (A : Type) (p q : A -> bool) l :
  forallb p l = true ->
  existsb (fun x => p x && q x) l = existsb q l.
Proof.
  induction l as [|x l IH]; cbn [existsb forallb]; [reflexivity|].
  intros H. apply andb_true_iff in H. destruct H as [-> H].
  cbn [andb]. now rewrite IH.
Qed.

(** X3: the version with a list of windows ignores the windows without
    a bound: the result is the same without them, so a window that is
    open on both sides never widens the result. *)
Theorem unbounded_windows_are_ignored :
  forall (docs : list Message) (roomID : string) (limit : Z)
         (fs : list DateFilter),
    MongoVariadic.GetMessageCache docs roomID limit fs
    = MongoVariadic.GetMessageCache docs roomID limit (filter bounded fs).
Proof.
  intros docs roomID limit fs. rewrite !variadic_result.
  assert (E : existsb bounded (filter bounded fs) = existsb bounded fs).
  { induction fs as [|f fs IH]; cbn [filter existsb]; [reflexivity|].
    destruct (bounded f) eqn:B; cbn [existsb orb]; [rewrite B|];
      now rewrite IH. }
  rewrite E.
  assert (F : filter (inSomeWindow roomID (filter bounded fs)) docs
              = filter (inSomeWindow roomID fs) docs).
  { apply filter_ext. intros m. unfold inSomeWindow. f_equal.
    rewrite (existsb_filter _ bounded (fun f => inside f (Time m)) fs).
    apply existsb_all, filter_bounded_all. }
  now rewrite F.
Qed.

Lemma existsb_perm (A : Type) (p : A -> bool) l l' :
  Permutation l l' -> existsb p l = existsb p l'.
Proof.
  intros H. induction H; cbn [existsb]; try congruence.
  - destruct (p x), (p y); reflexivity.
Qed.

(** X4: the order of the windows does not matter to the version with a
    list of windows. *)
Theorem window_order_is_irrelevant :
  forall (docs : list Message) (roomID : string) (limit : Z)
         (fs fs' : list DateFilter),
    Permutation fs fs' ->
    MongoVariadic.GetMessageCache docs roomID limit fs
    = MongoVariadic.GetMessageCache docs roomID limit fs'.
Proof.
  intros docs roomID limit fs fs' H. rewrite !variadic_result.
  rewrite (existsb_perm _ bounded fs fs' H).
  assert (F : filter (inSomeWindow roomID fs) docs
              = filter (inSomeWindow roomID fs') docs).
  { apply filter_ext. intros m. unfold inSomeWindow. f_equal.
    apply existsb_perm, H. }
  now rewrite F.
Qed.

Lemma window_order_is_irrelevant_witness :
  MongoVariadic.GetMessageCache sampleDocs "r" 2 [newYearsDay; anyTime]
  = MongoVariadic.GetMessageCache sampleDocs "r" 2 [anyTime; newYearsDay].
Proof.
  apply (window_order_is_irrelevant sampleDocs "r" 2
           [newYearsDay; anyTime] [anyTime; newYearsDay]).
  apply perm_swap.
Defined.

(** X5: the version with a list of windows fails exactly when no
    window has a bound, whatever the collection and the limit are. *)
Theorem variadic_fails_without_bound :
  forall (docs : list Message) (roomID : string) (limit : Z)
         (fs : list DateFilter),
    (exists e, MongoVariadic.GetMessageCache docs roomID limit fs = Err e)
    <-> (forall f, In f fs -> bounded f = false).
Proof.
  intros docs roomID limit fs. rewrite variadic_result.
  destruct (existsb bounded fs) eqn:B.
  - split; [intros [e H]; discriminate H|].
    intros H. apply existsb_exists in B. destruct B as (f & Hf & Hb).
    rewrite (H f Hf) in Hb. discriminate Hb.
  - split; [|intros _; eexists; reflexivity].
    intros _ f Hf. destruct (bounded f) eqn:Hb; [|reflexivity].
    assert (existsb bounded fs = true)
      by (apply existsb_exists; exists f; auto).
    congruence.
Qed.




(** X7: on one window with a bound, the two versions select the same
    records: what the version with one window returns is what the
    version with a list returns, put oldest first. *)
Theorem one_window_versions_agree :
  forall (docs : list Message) (roomID : string) (limit : Z)
         (f : DateFilter),
    bounded f = true ->
    exists newestFirst oldestFirst,
      MongoVariadic.GetMessageCache docs roomID limit [f] = Ok newestFirst
      /\ MongoSingle.GetMessageCache docs roomID limit f = Ok oldestFirst
      /\ Permutation newestFirst oldestFirst
      /\ descending newestFirst
      /\ ascending oldestFirst.
Proof.
  intros docs roomID limit f Hb.
  rewrite variadic_result, single_result. cbn [existsb]. rewrite Hb.
  cbn [orb]. cbv zeta.
  assert (F : filter (inSomeWindow roomID [f]) docs
              = filter (inWindow roomID f) docs).
  { apply filter_ext. intros m. unfold inSomeWindow, inWindow.
    cbn [existsb]. now rewrite Hb, orb_false_r. }
  rewrite F. do 2 eexists. split; [reflexivity|]. split; [reflexivity|].
  split; [apply Permutation_sym, sortBy_perm|]. split.
  - destruct (limit >? 0);
      [apply firstn_descending|]; apply sortBy_geb_descending.
  - apply sortBy_leb_ascending.
Qed.

Lemma one_window_versions_agree_witness :
  exists newestFirst oldestFirst,
    MongoVariadic.GetMessageCache sampleDocs "r" 2 [newYearsDay]
    = Ok newestFirst
    /\ MongoSingle.GetMessageCache sampleDocs "r" 2 newYearsDay
       = Ok oldestFirst
    /\ Permutation newestFirst oldestFirst
    /\ descending newestFirst
    /\ ascending oldestFirst.
Proof.
  apply (one_window_versions_agree sampleDocs "r" 2 newYearsDay).
  vm_compute. reflexivity.
Defined.

(** X8: the version without windows always sends a [$limit] stage: a
    limit that is not positive makes the query fail, and a positive
    limit gives the most recent records of the room, oldest first. *)
Theorem plain_version_needs_positive_limit :
  forall (docs : list Message) (roomID : string) (limit : Z),
    (limit <= 0 ->
     MongoPlain.GetMessageCache docs roomID limit
     = Err "the limit must be positive")
    /\ (0 < limit ->
        exists rs,
          MongoPlain.GetMessageCache docs roomID limit = Ok rs
          /\ ascending rs
          /\ Permutation rs
               (firstn (Z.to_nat limit)
                  (sortBy Z.geb (filter (inRoom roomID) docs)))).
Proof.
  intros docs roomID limit.
  unfold MongoPlain.GetMessageCache, MongoPlain.pipelineQuery.
  cbn [Aggregate stage wellFormed forallb].
  change (-1 =? 1) with false. change (-1 =? -1) with true. cbv iota.
  assert (F : filter (matches (Fields [RoomIs roomID])) docs
              = filter (inRoom roomID) docs).
  { apply filter_ext. intros m. cbn [matches forallb].
    now rewrite andb_true_r. }
  rewrite F. split; intros Hl.
  - cbn [andb]. cbv iota. destruct (Z.ltb_spec 0 limit); [lia|reflexivity].
  - destruct (Z.ltb_spec 0 limit); [|lia].
    cbn [Aggregate stage andb].
    change (1 =? 1) with true. cbv iota. rewrite decode_id.
    eexists. split; [reflexivity|].
    split; [apply sortBy_leb_ascending | apply sortBy_perm].
Qed.

(** *** Appending *)

Lemma plain_version_needs_positive_limit_witness :
  MongoPlain.GetMessageCache sampleDocs "r" 0
  = Err "the limit must be positive"
  /\ exists rs,
       MongoPlain.GetMessageCache sampleDocs "r" 2 = Ok rs
       /\ ascending rs
       /\ Permutation rs
            (firstn (Z.to_nat 2)
               (sortBy Z.geb (filter (inRoom "r") sampleDocs))).
Proof.
  split.
  - apply (proj1 (plain_version_needs_positive_limit sampleDocs "r" 0)).
    discriminate.
  - apply (proj2 (plain_version_needs_positive_limit sampleDocs "r" 2)).
    reflexivity.
Defined.










End CacheExtras.

(** * More on the history handler *)

Module HistoryExtras.
Import GoStrings Store GoTime Handlers Calendar History HistoryTerms.
Import TimeFacts ParseFacts HistoryFacts HourFacts DateFacts HandlerClaims.

Lemma insertFilter_sorted f l :
  sortedByStart l -> sortedByStart (insertFilter f l).
Proof.
  unfold sortedByStart. intros Hl.
  induction Hl as [|x l Hl IH Hx]; cbn [insertFilter].
  - constructor; constructor.
  - unfold Before. destruct (Z.ltb_spec (Start x) (Start f)).
    + constructor; [exact IH|].
      apply insertFilter_Forall; [lia | exact Hx].
    + constructor; [constructor; assumption|].
      constructor; [exact H|].
      eapply Forall_impl; [|exact Hx]. cbv beta. intros a Ha. lia.
Qed.

Lemma SliceStable_sorted l : sortedByStart (SliceStable l).
Proof.
  induction l as [|f l IH]; cbn; [constructor|].
  apply insertFilter_sorted, IH.
Qed.

(** X12: the windows the handler hands to the message cache are in the
    order of their starts. *)
Theorem windows_are_sorted_by_start :
  forall (app : App) (now : Time) (ctx : reqCtx) (req : reqChatHistory)
         (id : string) (dateFilters : list DateFilter),
    handleChatHistory app now ctx req = GetChatHistory id dateFilters ->
    sortedByStart dateFilters.
Proof.
  intros app now ctx req id l. unfold handleChatHistory.
  destruct (room ctx); [|discriminate].
  destruct (ParseDate (From req)) as [start|]; [|discriminate].
  destruct (ParseDate (Until req)) as [stop|]; [|discriminate].
  destruct (After start stop); [discriminate|].
  destruct (dateLoop _ _ _ _ _ _ _ _ _ _); try discriminate.
  intros E. injection E as <- <-. apply SliceStable_sorted.
Qed.

Lemma windows_are_sorted_by_start_witness :
  sortedByStart
    [mkDateFilter (Date 2023 1 1 9 0 0 0 UTC) (Date 2023 1 1 10 0 0 0 UTC);
     mkDateFilter (Date 2023 1 1 13 0 0 0 UTC) (Date 2023 1 1 14 0 0 0 UTC);
     mkDateFilter (Date 2023 1 2 9 0 0 0 UTC) (Date 2023 1 2 10 0 0 0 UTC);
     mkDateFilter (Date 2023 1 2 13 0 0 0 UTC) (Date 2023 1 2 14 0 0 0 UTC)].
Proof.
  apply (windows_are_sorted_by_start bareApp (Date 2023 1 5 0 0 0 0 UTC)
           (roomCtx "r")
           (historyOf "2023-01-01" "2023-01-02"
              "13:00:00 +0000-14:00:00 +0000,09:00:00 +0000-10:00:00 +0000")
           "r").
  vm_compute. reflexivity.
Defined.

Lemma dateLoop_no_hours loc now nowStart nowEnd hourArray stop fuel :
  forall i l,
  exists r,
    dateLoop fuel loc now nowStart nowEnd "" hourArray stop i l = r
    /\ (r = OutOfFuel \/ exists l', r = Done l').
Proof.
  induction fuel as [|fuel IH]; intros i l; cbn [dateLoop].
  - eexists. split; [reflexivity|]. left. reflexivity.
  - destruct (After i stop).
    + eexists. split; [reflexivity|]. right. eexists. reflexivity.
    + rewrite orb_true_r. unfold dayWindow.
      destruct (After _ now).
      * eexists. split; [reflexivity|]. right. eexists. reflexivity.
      * apply IH.
Qed.

(** X13: without hours, a request for an active room whose dates read
    and are in order always reaches the message cache: the handler
    neither answers with an error nor panics, in whatever time zone. *)
Theorem no_hours_always_queries :
  forall (app : App) (now : Time) (ctx : reqCtx) (req : reqChatHistory)
         (rm : Room) (start stop : Time),
    room ctx = Some rm ->
    ParseDate (From req) = Some start ->
    ParseDate (Until req) = Some stop ->
    start <= stop ->
    Hours req = "" ->
    exists dateFilters,
      handleChatHistory app now ctx req
      = GetChatHistory (ID rm) dateFilters.
Proof.
  intros app now ctx req rm start stop Hroom Hfrom Huntil Hle Hhours.
  pose proof (handleChatHistory_bounded app now ctx req) as Hb.
  revert Hb. unfold handleChatHistory.
  rewrite Hroom, Hfrom, Huntil, Hhours. unfold After.
  destruct (Z.gtb_spec start stop); [lia|].
  match goal with
  | |- context [dateLoop ?f ?a ?b ?c ?d ?e ?g ?h ?i ?j] =>
      destruct (dateLoop_no_hours a b c d g h f i j) as (r & -> & Hr)
  end.
  destruct Hr as [->|[l' ->]]; [intros Hb; now contradiction Hb|].
  intros _. eexists. reflexivity.
Qed.

Lemma no_hours_always_queries_witness :
  exists dateFilters,
    handleChatHistory bareApp (Date 2023 1 2 10 0 0 0 UTC) (roomCtx "r")
      (historyOf "2023-01-01" "2023-01-03" "")
    = GetChatHistory (ID (mkRoom "r" "r")) dateFilters.
Proof.
  apply (no_hours_always_queries bareApp (Date 2023 1 2 10 0 0 0 UTC)
           (roomCtx "r") (historyOf "2023-01-01" "2023-01-03" "")
           (mkRoom "r" "r")
           (Date 2023 1 1 0 0 0 0 UTC) (Date 2023 1 3 0 0 0 0 UTC)).
  - reflexivity.
  - vm_compute. reflexivity.
  - vm_compute. reflexivity.
  - vm_compute. discriminate.
  - reflexivity.
Defined.

Lemma Split_not_nil sep s : Split sep s <> [].
Proof.
  destruct s as [|c s]; cbn [Split]; [discriminate|].
  destruct (Ascii.eqb c sep); [discriminate|].
  destruct (Split sep s); discriminate.
Qed.

Lemma dateLoop_hours_any_zone loc loc' now nowStart nowEnd hours hourArray
      stop fuel :
  hours <> "" -> hourArray <> [] ->
  forall i l,
    dateLoop fuel loc now nowStart nowEnd hours hourArray stop i l
    = dateLoop fuel loc' now nowStart nowEnd hours hourArray stop i l.
Proof.
  intros Hh Ha.
  assert (E : Nat.leb (List.length hourArray) 0 || String.eqb hours ""
              = false).
  { apply orb_false_iff. split.
    - destruct hourArray; [congruence | reflexivity].
    - apply String.eqb_neq, Hh. }
  induction fuel as [|fuel IH]; intros i l; cbn [dateLoop];
    [reflexivity|].
  rewrite E. destruct (After i stop); [reflexivity|].
  destruct (hourLoop now i hourArray l); try reflexivity. apply IH.
Qed.

(** X14: when hours are given, the [timezone] parameter has no effect
    on the response nor on the instants of the windows: these come
    from the zone offsets written in the hour ranges. *)
Theorem timezone_is_ignored_with_hours :
  forall (app : App) (now : Time) (ctx : reqCtx) (req : reqChatHistory)
         (name : string),
    Hours req <> "" ->
    handleChatHistory app now ctx (withTimeZone req name)
    = handleChatHistory app now ctx req.
Proof.
  intros app now ctx req name Hh. unfold handleChatHistory, withTimeZone.
  cbn [From Until Hours TimeZone].
  destruct (room ctx); [|reflexivity].
  destruct (ParseDate (From req)) as [start|]; [|reflexivity].
  destruct (ParseDate (Until req)) as [stop|]; [|reflexivity].
  destruct (After start stop); [reflexivity|].
  generalize (match (if nonEmpty name then LoadLocation app name
                     else None) with
              | Some l => l
              | None => UTC
              end).
  generalize (match (if nonEmpty (TimeZone req)
                     then LoadLocation app (TimeZone req) else None) with
              | Some l => l
              | None => UTC
              end).
  intros lb la.
  rewrite (dateLoop_hours_any_zone la lb)
    by first [exact Hh | apply Split_not_nil].
  reflexivity.
Qed.

Lemma timezone_is_ignored_with_hours_witness :
  handleChatHistory bareApp (Date 2023 1 5 0 0 0 0 UTC) (roomCtx "r")
    (withTimeZone
       (historyOf "2023-01-01" "2023-01-02" "09:00:00 +0700-10:00:00 +0700")
       "Asia/Jakarta")
  = handleChatHistory bareApp (Date 2023 1 5 0 0 0 0 UTC) (roomCtx "r")
      (historyOf "2023-01-01" "2023-01-02" "09:00:00 +0700-10:00:00 +0700").
Proof.
  apply (timezone_is_ignored_with_hours bareApp (Date 2023 1 5 0 0 0 0 UTC)
           (roomCtx "r")
           (historyOf "2023-01-01" "2023-01-02"
              "09:00:00 +0700-10:00:00 +0700")
           "Asia/Jakarta").
  discriminate.
Defined.


Lemma SliceStable_sorted_id l : sortedByStart l -> SliceStable l = l.
Proof.
  unfold sortedByStart. intros Hl.
  induction Hl as [|f l Hl IH Hf]; [reflexivity|].
  change (SliceStable (f :: l)) with (insertFilter f (SliceStable l)).
  rewrite IH. destruct l as [|x l]; [reflexivity|].
  cbn [insertFilter]. unfold Before.
  apply Forall_inv in Hf.
  destruct (Z.ltb_spec (Start x) (Start f)); [lia|reflexivity].
Qed.

Lemma fullDays_from now n : forall start,
  Forall (fun f => start <= Start f) (fullDays now start n).
Proof.
  induction n as [|n IH]; intros start; cbn [fullDays]; [constructor|].
  destruct (start >? now); constructor; [cbn; lia|].
  eapply Forall_impl; [|apply IH]. cbv beta. intros f Hf.
  unfold Hour, Minute, Second in *. lia.
Qed.

Lemma fullDays_sorted now n : forall start,
  sortedByStart (fullDays now start n).
Proof.
  unfold sortedByStart.
  induction n as [|n IH]; intros start; cbn [fullDays]; [constructor|].
  destruct (start >? now); constructor; [apply IH|].
  eapply Forall_impl; [|apply fullDays_from]. cbv beta. intros f Hf.
  cbn [Start]. unfold Hour, Minute, Second in *. lia.
Qed.

(** The clock of the start and of the end of the current day in UTC. *)
Lemma day_template now :
  let nowStart := Truncate now (24 * Hour) in
  let nowEnd := Add nowStart (23 * Hour + 59 * Minute + 59 * Second) in
  (HourOf UTC nowStart = 0 /\ MinuteOf UTC nowStart = 0
   /\ SecondOf UTC nowStart = 0 /\ NanosecondOf nowStart = 0)
  /\ (HourOf UTC nowEnd = 23 /\ MinuteOf UTC nowEnd = 59
      /\ SecondOf UTC nowEnd = 59 /\ NanosecondOf nowEnd = 0).
Proof.
  cbv zeta.
  unfold Truncate, Add, HourOf, MinuteOf, SecondOf, NanosecondOf, abs, sec,
    nsec, UTC, FixedZone, offsetAt.
  cbn [fst].
  change (24 * Hour <=? 0) with false. cbv iota.
  unfold Hour, Minute, Second, secondsPerDay.
  repeat split; zdiv.
Qed.

(** The pass of the date loop for one day, without hours, in UTC. *)
Lemma dayWindow_UTC now k l :
  dayWindow UTC now (Truncate now (24 * Hour))
    (Add (Truncate now (24 * Hour)) (23 * Hour + 59 * Minute + 59 * Second))
    (k * (24 * Hour)) l
  = if k * (24 * Hour) >? now then Break l
    else Continue
           (l ++ [mkDateFilter (k * (24 * Hour))
                    (Z.min (endOfDay (k * (24 * Hour))) now)]).
Proof.
  unfold dayWindow.
  destruct (day_template now) as ((-> & -> & -> & ->) & (-> & -> & -> & ->)).
  unfold Year, Month, Day, DateOf. fold (dayNumber (k * (24 * Hour))).
  rewrite dayNumber_midnight.
  pose proof (absDate_spec k) as Hs.
  destruct (absDate k) as [[y m] d]. cbn [fst snd].
  destruct Hs as (Hm & Hd & He).
  unfold UTC. rewrite !Date_FixedZone by lia. rewrite He.
  unfold Before, After, endOfDay.
  set (start := k * (24 * Hour)).
  replace ((k * secondsPerDay + (0 * 3600 + 0 * 60 + 0) - 0) * Second + 0)
    with start
    by (unfold start, secondsPerDay, Hour, Minute, Second; lia).
  replace ((k * secondsPerDay + (23 * 3600 + 59 * 60 + 59) - 0) * Second + 0)
    with (start + (23 * Hour + 59 * Minute + 59 * Second))
    by (unfold start, secondsPerDay, Hour, Minute, Second; lia).
  assert (Hlt : start < start + (23 * Hour + 59 * Minute + 59 * Second))
    by (unfold Hour, Minute, Second; lia).
  destruct (Z.ltb_spec start
              (start + (23 * Hour + 59 * Minute + 59 * Second))); [|lia].
  cbn [negb].
  destruct (Z.gtb_spec start now); [reflexivity|].
  do 4 f_equal.
  destruct (Z.ltb_spec now
              (start + (23 * Hour + 59 * Minute + 59 * Second))); lia.
Qed.

Lemma dateLoop_UTC now hourArray k1 n :
  forall fuel k l,
    (n < fuel)%nat ->
    Z.of_nat n = Z.max 0 (k1 - k + 1) ->
    dateLoop fuel UTC now (Truncate now (24 * Hour))
      (Add (Truncate now (24 * Hour))
         (23 * Hour + 59 * Minute + 59 * Second))
      "" hourArray (k1 * (24 * Hour)) (k * (24 * Hour)) l
    = Done (l ++ fullDays now (k * (24 * Hour)) n).
Proof.
  assert (Hday : 0 < 24 * Hour) by (unfold Hour, Minute, Second; lia).
  induction n as [|n IH]; intros fuel k l Hf Hn;
    (destruct fuel as [|fuel]; [lia|]); cbn [dateLoop fullDays];
    unfold After at 1.
  - destruct (Z.gtb_spec (k * (24 * Hour)) (k1 * (24 * Hour))); [|nia].
    now rewrite app_nil_r.
  - destruct (Z.gtb_spec (k * (24 * Hour)) (k1 * (24 * Hour))); [nia|].
    rewrite orb_true_r. rewrite dayWindow_UTC.
    destruct (k * (24 * Hour) >? now); [now rewrite app_nil_r|].
    rewrite (AddDate_day 0 _ : AddDate UTC _ 0 0 1 = _).
    replace (k * (24 * Hour) + 24 * Hour) with ((k + 1) * (24 * Hour))
      by lia.
    rewrite IH by lia. now rewrite <- app_assoc.
Qed.

(** X15: without hours and in UTC, the handler asks for one window for
    each day from [from] to [until] that has begun: from the first
    second of the day to its last second, or to the current instant on
    the current day; the days after the current day get no window. *)
Theorem no_hours_gives_one_window_a_day :
  forall (app : App) (now : Time) (ctx : reqCtx) (req : reqChatHistory)
         (rm : Room) (start stop : Time),
    room ctx = Some rm ->
    ParseDate (From req) = Some start ->
    ParseDate (Until req) = Some stop ->
    start <= stop ->
    Hours req = "" ->
    meansUTC app (TimeZone req) ->
    handleChatHistory app now ctx req
    = GetChatHistory (ID rm) (fullDays now start (dayCount start stop)).
Proof.
  intros app now ctx req rm start stop Hroom Hfrom Huntil Hle Hhours Hz.
  unfold handleChatHistory.
  rewrite Hroom, Hfrom, Huntil, Hhours. unfold After.
  destruct (Z.gtb_spec start stop); [lia|].
  assert (Hloc : match (if nonEmpty (TimeZone req)
                        then LoadLocation app (TimeZone req) else None) with
                 | Some l => l
                 | None => UTC
                 end = UTC).
  { destruct Hz as [-> | [-> | [Hn Hz]]]; [reflexivity | reflexivity |].
    unfold LoadLocation. rewrite Hz.
    apply String.eqb_neq in Hn. rewrite Hn.
    destruct (nonEmpty (TimeZone req)); [|reflexivity].
    destruct (_ || _); reflexivity. }
  rewrite Hloc.
  apply ParseDate_day in Hfrom, Huntil.
  destruct Hfrom as (k0 & _ & ->). destruct Huntil as (k1 & _ & ->).
  assert (Hday : 0 < 24 * Hour) by (unfold Hour, Minute, Second; lia).
  assert (Hk : k0 <= k1) by nia.
  assert (Hdiv : (k1 * (24 * Hour) - k0 * (24 * Hour)) / (24 * Hour)
                 = k1 - k0).
  { replace (k1 * (24 * Hour) - k0 * (24 * Hour))
      with ((k1 - k0) * (24 * Hour)) by lia.
    apply Z.div_mul. lia. }
  rewrite (dateLoop_UTC now _ k1 (dayCount (k0 * (24 * Hour))
                                    (k1 * (24 * Hour))));
    [| unfold passes, dayCount; rewrite Hdiv; lia
     | unfold dayCount; rewrite Hdiv; lia ].
  cbn [List.app]. rewrite SliceStable_sorted_id by apply fullDays_sorted.
  reflexivity.
Qed.

Lemma no_hours_gives_one_window_a_day_witness :
  handleChatHistory bareApp (Date 2023 1 2 10 0 0 0 UTC) (roomCtx "r")
    (withTimeZone (historyOf "2023-01-01" "2023-01-03" "") "Mars/Olympus")
  = GetChatHistory "r"
      [ mkDateFilter (Date 2023 1 1 0 0 0 0 UTC)
                     (Date 2023 1 1 23 59 59 0 UTC);
        mkDateFilter (Date 2023 1 2 0 0 0 0 UTC)
                     (Date 2023 1 2 10 0 0 0 UTC) ].
Proof.
  apply (no_hours_gives_one_window_a_day bareApp
           (Date 2023 1 2 10 0 0 0 UTC) (roomCtx "r")
           (withTimeZone (historyOf "2023-01-01" "2023-01-03" "")
              "Mars/Olympus")
           (mkRoom "r" "r")
           (Date 2023 1 1 0 0 0 0 UTC) (Date 2023 1 3 0 0 0 0 UTC)).
  - reflexivity.
  - vm_compute. reflexivity.
  - vm_compute. reflexivity.
  - vm_compute. discriminate.
  - reflexivity.
  - right. right. split; [discriminate | reflexivity].
Defined.


Lemma hourWindow_no_dash now i hour c l :
  firstDay <= dayNumber i <= lastDay ->
  Split "-" hour = [c] ->
  clockReads c = true ->
  hourWindow now i hour l = Panic.
Proof.
  intros Hi Hs Hc. unfold hourWindow. rewrite Hs. cbn [nth].
  rewrite ParseDateTimeZone_format by assumption.
  unfold clockReads in Hc.
  destruct (parseClock (" " ++ c)) as [[[[[? ?] ?] ?] ?]|];
    [reflexivity | discriminate].
Qed.

Lemma hourLoop_panics now i pre bad post :
  (forall h, In h pre ->
     forall l, exists w, hourWindow now i h l = Continue (l ++ [w])) ->
  (forall l, hourWindow now i bad l = Panic) ->
  forall l, hourLoop now i (pre ++ bad :: post)%list l = Panic.
Proof.
  intros Hpre Hbad.
  induction pre as [|h pre IH]; intros l; cbn [List.app hourLoop].
  - now rewrite Hbad.
  - destruct (Hpre h (or_introl eq_refl) l) as [w ->].
    apply IH. intros h' Hh'. apply Hpre. right. exact Hh'.
Qed.

(** X16: an hour range without the separator [-], whose only component
    reads, makes the handler panic on the missing second component
    when the loop reaches it on the first day: the request gets no
    validation error. *)
Theorem range_without_dash_panics :
  forall (app : App) (now : Time) (ctx : reqCtx) (req : reqChatHistory)
         (rm : Room) (start stop : Time) (pre post : list string)
         (bad c : string),
    room ctx = Some rm ->
    ParseDate (From req) = Some start ->
    ParseDate (Until req) = Some stop ->
    start <= stop ->
    Hours req <> "" ->
    Split ","%char (Hours req) = (pre ++ bad :: post)%list ->
    (forall h, In h pre ->
       forall l, exists w, hourWindow now start h l = Continue (l ++ [w])) ->
    Split "-"%char bad = [c] ->
    clockReads c = true ->
    handleChatHistory app now ctx req = Panics.
Proof.
  intros app now ctx req rm start stop pre post bad c
    Hroom Hfrom Huntil Hle Hhours Hsplit Hpre Hbad Hc.
  unfold handleChatHistory. rewrite Hroom, Hfrom, Huntil.
  unfold After. destruct (Z.gtb_spec start stop); [lia|].
  replace (passes start stop)
    with (S (S (Z.to_nat ((stop - start) / (24 * Hour)))))
    by (unfold passes; lia).
  cbn [dateLoop]. unfold After.
  destruct (Z.gtb_spec start stop); [lia|].
  rewrite Hsplit.
  assert (E1 : Nat.leb (List.length (pre ++ bad :: post)%list) 0 = false).
  { rewrite length_app. cbn [List.length]. apply Nat.leb_gt. lia. }
  assert (E2 : String.eqb (Hours req) "" = false)
    by (apply String.eqb_neq; exact Hhours).
  rewrite E1, E2. cbn [orb].
  rewrite hourLoop_panics; [reflexivity | assumption |].
  intros l. eapply hourWindow_no_dash;
    [eapply ParseDate_dayNumber; eassumption | eassumption | assumption].
Qed.

Lemma range_without_dash_panics_witness :
  handleChatHistory bareApp (Date 2023 1 5 10 0 0 0 UTC) (roomCtx "r")
    (historyOf "2023-01-01" "2023-01-02" "09:00:00 +0000")
  = Panics.
Proof.
  apply (range_without_dash_panics bareApp (Date 2023 1 5 10 0 0 0 UTC)
           (roomCtx "r")
           (historyOf "2023-01-01" "2023-01-02" "09:00:00 +0000")
           (mkRoom "r" "r")
           (Date 2023 1 1 0 0 0 0 UTC) (Date 2023 1 2 0 0 0 0 UTC)
           [] [] "09:00:00 +0000" "09:00:00 +0000").
  - reflexivity.
  - vm_compute. reflexivity.
  - vm_compute. reflexivity.
  - vm_compute. discriminate.
  - discriminate.
  - reflexivity.
  - intros h [].
  - reflexivity.
  - vm_compute. reflexivity.
Defined.

(** *** Zone offsets in hour ranges *)

Lemma Split_noDash s : Forall (fun c => noDash c = true) (Split "-" s).
Proof.
  induction s as [|a s IH]; cbn [Split].
  - constructor; [reflexivity|constructor].
  - destruct (Ascii.eqb a "-") eqn:E.
    + constructor; [reflexivity | exact IH].
    + destruct (Split "-" s) as [|piece pieces].
      * constructor; [|constructor]. cbn [noDash]. now rewrite E.
      * inversion IH as [|? ? Hp Hps]; subst.
        constructor; [|exact Hps]. cbn [noDash]. now rewrite E, Hp.
Qed.

Lemma noDash_tail c s : noDash (String c s) = true -> noDash s = true.
Proof. cbn [noDash]. intros H. apply andb_true_iff in H. tauto. Qed.

Lemma cutspace_noDash s : noDash s = true -> noDash (cutspace s) = true.
Proof.
  induction s as [|c s IH]; cbn [cutspace]; [tauto|].
  intros H. destruct (Ascii.eqb c " "); [|exact H].
  apply IH. eapply noDash_tail, H.
Qed.

Lemma skip_noDash pre : forall value b rest,
  skip value pre b = Some rest -> noDash value = true ->
  noDash rest = true.
Proof.
  induction pre as [|p pre IH]; intros value b rest; cbn [skip].
  - intros E. injection E as <-. tauto.
  - destruct (Ascii.eqb p " ").
    + destruct b; [apply IH|].
      destruct value as [|v value']; [apply IH|].
      destruct (Ascii.eqb v " "); [|discriminate].
      intros E Hn. eapply IH; [exact E|]. apply cutspace_noDash, Hn.
    + destruct value as [|v value']; [discriminate|].
      destruct (Ascii.eqb v p); [|discriminate].
      intros E Hn. eapply IH; [exact E|]. eapply noDash_tail, Hn.
Qed.

Lemma getnum_noDash s fixed n rest :
  getnum s fixed = Some (n, rest) -> noDash s = true ->
  noDash rest = true /\ 0 <= n.
Proof.
  unfold getnum.
  destruct s as [|c0 rest0]; [discriminate|].
  destruct (isDigitChar c0) eqn:E0; [|discriminate].
  apply digitVal_range in E0.
  destruct rest0 as [|c1 rest1].
  - destruct fixed; [discriminate|].
    intros E Hn. injection E as <- <-. split; [reflexivity | lia].
  - destruct (isDigitChar c1) eqn:E1.
    + apply digitVal_range in E1.
      intros E Hn. injection E as <- <-. split; [|lia].
      eapply noDash_tail, noDash_tail, Hn.
    + destruct fixed; [discriminate|].
      intros E Hn. injection E as <- <-. split; [|lia].
      eapply noDash_tail, Hn.
Qed.

Lemma spanDigits_noDash s ds rest :
  spanDigits s = (ds, rest) -> noDash s = true -> noDash rest = true.
Proof.
  revert ds rest. induction s as [|c s IH]; intros ds rest; cbn [spanDigits].
  - intros E. injection E as <- <-. tauto.
  - destruct (isDigitChar c).
    + destruct (spanDigits s) as [ds' rest'].
      intros E Hn. injection E as <- <-.
      eapply IH; [reflexivity|]. eapply noDash_tail, Hn.
    + intros E. injection E as <- <-. tauto.
Qed.

Lemma parseFrac_noDash s ns rest :
  parseFrac s = Some (ns, rest) -> noDash s = true -> noDash rest = true.
Proof.
  unfold parseFrac.
  destruct s as [|c0 [|c1 s]]; try (intros E; injection E as <- <-; tauto).
  destruct (commaOrPeriod c0 && isDigitChar c1);
    [|intros E; injection E as <- <-; tauto].
  destruct (spanDigits (String c1 s)) as [ds value'] eqn:Es.
  destruct (atoi _); [|discriminate]. cbn [bind].
  intros E Hn. injection E as <- <-.
  eapply spanDigits_noDash; [exact Es|]. eapply noDash_tail, Hn.
Qed.

Lemma parseNumTZ_noDash s zone rest :
  parseNumTZ s = Some (zone, rest) -> noDash s = true -> 0 <= zone.
Proof.
  unfold parseNumTZ.
  destruct s as [|sign [|h0 [|h1 [|m0 [|m1 value']]]]]; try discriminate.
  destruct (getnum (String h0 (String h1 "")) true) as [[hr r1]|] eqn:Eh;
    [|discriminate].
  destruct (getnum (String m0 (String m1 "")) true) as [[mm r2]|] eqn:Em;
    [|discriminate].
  cbn [bind].
  destruct (guard (negb (hr >? 24))); [|discriminate].
  destruct (guard (negb (mm >? 60))); [|discriminate]. cbn [bind].
  intros E Hn. cbn [noDash] in Hn. apply andb_true_iff in Hn.
  destruct Hn as [Hs _]. apply negb_true_iff in Hs.
  rewrite Hs in E.
  assert (0 <= hr).
  { unfold getnum in Eh. destruct (isDigitChar h0) eqn:E0; [|discriminate].
    destruct (isDigitChar h1) eqn:E1; [|discriminate].
    apply digitVal_range in E0, E1. injection Eh as <- _. lia. }
  assert (0 <= mm).
  { unfold getnum in Em. destruct (isDigitChar m0) eqn:E0; [|discriminate].
    destruct (isDigitChar m1) eqn:E1; [|discriminate].
    apply digitVal_range in E0, E1. injection Em as <- _. lia. }
  destruct (Ascii.eqb sign "+"); [|discriminate].
  injection E as <- _. lia.
Qed.

Lemma parseClock_noDash s h mi sc ns zone :
  parseClock s = Some (h, mi, sc, ns, zone) -> noDash s = true ->
  0 <= zone.
Proof.
  unfold parseClock. intros E Hn.
  destruct (skip s " " false) as [v1|] eqn:E1; [|discriminate].
  apply (skip_noDash _ _ _ _ E1) in Hn. cbn [bind] in E.
  destruct (getnum v1 false) as [[hour v2]|] eqn:E2; [|discriminate].
  apply (getnum_noDash _ _ _ _ E2) in Hn. destruct Hn as [Hn _].
  cbn [bind] in E.
  destruct (guard _); [|discriminate]. cbn [bind] in E.
  destruct (skip v2 ":" false) as [v3|] eqn:E3; [|discriminate].
  apply (skip_noDash _ _ _ _ E3) in Hn. cbn [bind] in E.
  destruct (getnum v3 true) as [[min v4]|] eqn:E4; [|discriminate].
  apply (getnum_noDash _ _ _ _ E4) in Hn. destruct Hn as [Hn _].
  cbn [bind] in E.
  destruct (guard _); [|discriminate]. cbn [bind] in E.
  destruct (skip v4 ":" false) as [v5|] eqn:E5; [|discriminate].
  apply (skip_noDash _ _ _ _ E5) in Hn. cbn [bind] in E.
  destruct (getnum v5 true) as [[sec v6]|] eqn:E6; [|discriminate].
  apply (getnum_noDash _ _ _ _ E6) in Hn. destruct Hn as [Hn _].
  cbn [bind] in E.
  destruct (guard _); [|discriminate]. cbn [bind] in E.
  destruct (parseFrac v6) as [[nsec v7]|] eqn:E7; [|discriminate].
  apply (parseFrac_noDash _ _ _ E7) in Hn. cbn [bind] in E.
  destruct (skip v7 " " false) as [v8|] eqn:E8; [|discriminate].
  apply (skip_noDash _ _ _ _ E8) in Hn. cbn [bind] in E.
  destruct (parseNumTZ v8) as [[z v9]|] eqn:E9; [|discriminate].
  apply (parseNumTZ_noDash _ _ _ E9) in Hn. cbn [bind] in E.
  destruct (guard _); [|discriminate]. cbn [bind] in E.
  injection E as _ _ _ _ <-. exact Hn.
Qed.

(** X17: a component of an hour range cannot carry a zone offset west
    of UTC: the ranges are cut at every [-], so the offset of a
    component that reads is never negative. *)
Theorem hour_ranges_have_no_western_zone :
  forall (hour c : string) (h mi s ns zone : Z),
    In c (Split "-"%char hour) ->
    parseClock (" " ++ c) = Some (h, mi, s, ns, zone) ->
    0 <= zone.
Proof.
  intros hour c h mi s ns zone Hc Hp.
  eapply parseClock_noDash; [exact Hp|].
  pose proof (Split_noDash hour) as Hs. rewrite Forall_forall in Hs.
  cbn [append noDash]. exact (Hs c Hc).
Qed.

Lemma hour_ranges_have_no_western_zone_witness :
  In "09:00:00 +0700" (Split "-"%char "09:00:00 +0700-17:00:00 +0700")
  /\ parseClock (" " ++ "09:00:00 +0700") = Some (9, 0, 0, 0, 25200)
  /\ 0 <= 25200.
Proof.
  split; [left; reflexivity|]. split; [reflexivity|].
  apply (hour_ranges_have_no_western_zone
           "09:00:00 +0700-17:00:00 +0700" "09:00:00 +0700" 9 0 0 0 25200).
  - left. reflexivity.
  - reflexivity.
Defined.

(** The range that a client seven hours west of UTC would write ends
    with the validation error. *)
Lemma western_range_is_rejected :
  handleChatHistory bareApp (Date 2023 1 5 10 0 0 0 UTC) (roomCtx "r")
    (historyOf "2023-01-01" "2023-01-02" "09:00:00 -0700-17:00:00 -0700")
  = Respond StatusBadRequest "Error parsing hours for date".
Proof. vm_compute. reflexivity. Qed.

End HistoryExtras.

(** * The middleware [wrap] beyond the claims *)

Module WrapExtras.
Import GoStrings Store Handlers History HistoryTerms.
Local Open Scope string_scope.
Local Open Scope Z_scope.

Lemma nonEmpty_false s : nonEmpty s = false <-> s = "".
Proof.
  unfold nonEmpty. rewrite negb_false_iff. apply String.eqb_eq.
Qed.

Lemma nonEmpty_true s : nonEmpty s = true <-> s <> "".
Proof.
  unfold nonEmpty. rewrite negb_true_iff. apply String.eqb_neq.
Qed.

(** X18: a request that carries no session is never refused by the
    middleware, whatever its flags: the handler is called with the
    empty session and the room of the route. *)
Theorem request_without_session_passes :
  forall (app : App) (opts : Z) (r : Request),
    anonymous r ->
    exists ctx,
      wrap app opts r = Next ctx
      /\ session ctx = mkSess "" ""
      /\ roomID ctx = urlRoomID r
      /\ (Z.land opts hasRoom = 0 -> room ctx = None).
Proof.
  intros app opts r (Hck & Hq & Hh). unfold wrap.
  rewrite Hck, Hq, Hh. cbn [nonEmpty String.eqb negb orb].
  destruct (negb (Z.land opts hasAuth =? 0)); eexists;
    (split; [reflexivity|]); cbn [session roomID room];
    (split; [reflexivity|]); (split; [reflexivity|]);
    intros ->; reflexivity.
Qed.

Lemma request_without_session_passes_witness :
  exists ctx,
    wrap bareApp (Z.lor hasAuth hasRoom) (mkRequest None "" "" "lobby")
    = Next ctx
    /\ session ctx = mkSess "" ""
    /\ roomID ctx = "lobby"
    /\ (Z.land (Z.lor hasAuth hasRoom) hasRoom = 0 -> room ctx = None).
Proof.
  apply (request_without_session_passes bareApp (Z.lor hasAuth hasRoom)
           (mkRequest None "" "" "lobby")).
  repeat split.
Defined.

(** X19: a session cookie with a value wins: the [session_id] of the
    query string and of the header are not looked at. *)
Theorem cookie_value_takes_precedence :
  forall (app : App) (opts : Z) (r : Request) (v : string),
    ck r = Some v ->
    v <> "" ->
    wrap app opts r
    = wrap app opts (mkRequest (Some v) "" "" (urlRoomID r)).
Proof.
  intros app opts r v Hck Hv. apply nonEmpty_true in Hv.
  unfold wrap, sessionToken. rewrite Hck.
  cbn [ck querySessionID headerSessionID urlRoomID ckHasValue].
  rewrite Hv. cbn [negb andb orb]. reflexivity.
Qed.

Lemma cookie_value_takes_precedence_witness :
  wrap bareApp hasAuth (mkRequest (Some "c0ffee") "beef" "f00d" "lobby")
  = wrap bareApp hasAuth (mkRequest (Some "c0ffee") "" "" "lobby").
Proof.
  apply (cookie_value_takes_precedence bareApp hasAuth
           (mkRequest (Some "c0ffee") "beef" "f00d" "lobby") "c0ffee").
  - reflexivity.
  - discriminate.
Defined.

(** X20: the value of the [session_id] header is never read: only its
    presence counts, so two requests that differ in the value of a
    present header are treated alike. *)
Theorem header_value_is_never_read :
  forall (app : App) (opts : Z) (r : Request) (other : string),
    headerSessionID r <> "" ->
    other <> "" ->
    wrap app opts r
    = wrap app opts
        (mkRequest (ck r) (querySessionID r) other (urlRoomID r)).
Proof.
  intros app opts r other Hh Ho.
  apply nonEmpty_true in Hh. apply nonEmpty_true in Ho.
  unfold wrap, sessionToken.
  cbn [ck querySessionID headerSessionID urlRoomID].
  rewrite Hh, Ho.
  destruct (negb (ckHasValue (ck r)) && nonEmpty (querySessionID r));
    reflexivity.
Qed.

Lemma header_value_is_never_read_witness :
  wrap bareApp hasAuth (mkRequest (Some "") "" "f00d" "lobby")
  = wrap bareApp hasAuth (mkRequest (Some "") "" "beef" "lobby").
Proof.
  apply (header_value_is_never_read bareApp hasAuth
           (mkRequest (Some "") "" "f00d" "lobby") "beef");
    discriminate.
Defined.

(** X21: the middleware answers with an error only for a session: the
    status is 403, authentication is asked for, and the store has no
    session for the value of the cookie or of the query string.  A
    room that is missing is never a reason. *)
Theorem refused_only_for_session :
  forall (app : App) (opts : Z) (r : Request) (st : Z) (e : string),
    wrap app opts r = respondJSON st e ->
    st = StatusForbidden
    /\ e = "error checking session"
    /\ Z.land opts hasAuth <> 0
    /\ exists token,
         (ck r = Some token \/ querySessionID r = token)
         /\ GetSession app token (urlRoomID r) = None.
Proof.
  intros app opts r st e. unfold wrap.
  destruct (Z.eqb_spec (Z.land opts hasAuth) 0) as [E|E];
    cbn [negb]; [discriminate|].
  destruct (ckHasValue (ck r) || nonEmpty (querySessionID r)
            || nonEmpty (headerSessionID r)); [|discriminate].
  assert (Htok : forall token, sessionToken r = Next token ->
            ck r = Some token \/ querySessionID r = token).
  { intros token. unfold sessionToken.
    destruct (negb (ckHasValue (ck r)) && nonEmpty (querySessionID r)).
    - intros H. injection H as <-. right. reflexivity.
    - destruct (ck r); [|discriminate].
      intros H. injection H as <-. left. reflexivity. }
  destruct (sessionToken r) as [token|st' e'|] eqn:Et.
  - destruct (GetSession app token (urlRoomID r)) eqn:Eg; [discriminate|].
    intros H. injection H as <- <-.
    repeat split; [exact E|].
    exists token. split; [apply Htok; reflexivity | exact Eg].
  - exfalso. revert Et. unfold sessionToken.
    destruct (negb (ckHasValue (ck r)) && nonEmpty (querySessionID r));
      [discriminate|].
    destruct (ck r); discriminate.
  - discriminate.
Qed.

Lemma refused_only_for_session_witness :
  StatusForbidden = StatusForbidden
  /\ "error checking session" = "error checking session"
  /\ Z.land hasAuth hasAuth <> 0
  /\ exists token,
       (ck (mkRequest (Some "c0ffee") "" "" "lobby") = Some token
        \/ querySessionID (mkRequest (Some "c0ffee") "" "" "lobby") = token)
       /\ GetSession bareApp token
            (urlRoomID (mkRequest (Some "c0ffee") "" "" "lobby")) = None.
Proof.
  apply (refused_only_for_session bareApp hasAuth
           (mkRequest (Some "c0ffee") "" "" "lobby")).
  reflexivity.
Defined.

End WrapExtras.

(** * The handlers of rooms and sessions *)

Module RoomExtras.
Import Store RoomHandlers HistoryTerms RoomTerms.
Local Open Scope string_scope.
Local Open Scope Z_scope.

(** Case analysis on every test of a handler, innermost first. *)
Ltac walk :=
  repeat match goal with
  | |- context [match ?x with _ => _ end] =>
      lazymatch x with
      | context [match _ with _ => _ end] => fail
      | _ => destruct x eqn:?
      end
  end.

(** The reply at the end of one path through a handler. *)
Ltac leaf :=
  cbn [respondJSON response calls];
  let H := fresh in
  intros H; try discriminate H; injection H as <-;
  cbn [error status data setCookie].

(** ** [handleWS] and [handleLogout] behind [wrap] *)

(** X22: a peer joins a room only with a session of the store: when
    [handleWS] behind [wrap] adds a peer, the store has returned the
    peer's id and handle for the value of the cookie or of the query
    string, the id is not empty, and the connection was upgraded. *)
Theorem peer_has_store_session :
  forall (app : Handlers.App) (sv : Services) (opts : Z)
         (r : Handlers.Request) (ctx : Handlers.reqCtx)
         (rm : option Handlers.Room) (id handle : string),
    Handlers.wrap app opts r = Handlers.Next ctx ->
    In (AddPeerCall rm id handle) (calls (handleWS sv ctx)) ->
    id <> ""
    /\ Upgrade sv = true
    /\ rm = Handlers.room ctx
    /\ exists token,
         (Handlers.ck r = Some token \/ Handlers.querySessionID r = token)
         /\ Handlers.GetSession app token (Handlers.urlRoomID r)
            = Some (Handlers.mkSess id handle).
Proof.
  intros app sv opts r ctx rm id handle Hw Hin.
  unfold handleWS in Hin.
  destruct (String.eqb_spec (Handlers.sessID (Handlers.session ctx)) "")
    as [E|E]; [destruct Hin|].
  destruct (Upgrade sv) eqn:Eu; cbn [negb calls] in Hin; [|destruct Hin].
  destruct Hin as [Hin|[]]. injection Hin as <- <- <-.
  split; [exact E|]. split; [reflexivity|]. split; [reflexivity|].
  revert Hw E. unfold Handlers.wrap.
  destruct (negb (Z.land opts Handlers.hasAuth =? 0)).
  2:{ intros H. injection H as <-. cbn. congruence. }
  destruct (Handlers.ckHasValue (Handlers.ck r)
            || Handlers.nonEmpty (Handlers.querySessionID r)
            || Handlers.nonEmpty (Handlers.headerSessionID r)).
  2:{ intros H. injection H as <-. cbn. congruence. }
  destruct (Handlers.sessionToken r) as [token| |] eqn:Et;
    [|discriminate|discriminate].
  destruct (Handlers.GetSession app token (Handlers.urlRoomID r))
    as [[sid sh]|] eqn:Eg; [|discriminate].
  intros H _. injection H as <-. cbn.
  exists token. split; [|exact Eg].
  revert Et. unfold Handlers.sessionToken.
  destruct (negb (Handlers.ckHasValue (Handlers.ck r))
            && Handlers.nonEmpty (Handlers.querySessionID r)).
  - intros H. injection H as <-. right. reflexivity.
  - destruct (Handlers.ck r); [|discriminate].
    intros H. injection H as <-. left. reflexivity.
Qed.

Lemma peer_has_store_session_witness :
  "s1" <> ""
  /\ Upgrade plainServices = true
  /\ Some (Handlers.mkRoom "lobby" "lobby")
     = Handlers.room
         (Handlers.mkReqCtx (Some (Handlers.mkRoom "lobby" "lobby"))
            "lobby" (Handlers.mkSess "s1" "ann"))
  /\ exists token,
       (Handlers.ck (Handlers.mkRequest (Some "s1") "" "" "lobby")
        = Some token
        \/ Handlers.querySessionID
             (Handlers.mkRequest (Some "s1") "" "" "lobby") = token)
       /\ Handlers.GetSession oneSessionApp token
            (Handlers.urlRoomID
               (Handlers.mkRequest (Some "s1") "" "" "lobby"))
          = Some (Handlers.mkSess "s1" "ann").
Proof.
  apply (peer_has_store_session oneSessionApp plainServices
           (Z.lor Handlers.hasAuth Handlers.hasRoom)
           (Handlers.mkRequest (Some "s1") "" "" "lobby")
           (Handlers.mkReqCtx (Some (Handlers.mkRoom "lobby" "lobby"))
              "lobby" (Handlers.mkSess "s1" "ann"))).
  - reflexivity.
  - left. reflexivity.
Defined.

(** X23: a request without a session never opens a websocket: behind
    [wrap], whatever its flags, [handleWS] answers 403 and calls
    nothing. *)
Theorem websocket_needs_session :
  forall (app : Handlers.App) (sv : Services) (opts : Z)
         (r : Handlers.Request) (ctx : Handlers.reqCtx),
    anonymous r ->
    Handlers.wrap app opts r = Handlers.Next ctx ->
    handleWS sv ctx
    = respondJSON [] Nothing (Some "invalid session")
        Handlers.StatusForbidden.
Proof.
  intros app sv opts r ctx (Hck & Hq & Hh). unfold Handlers.wrap.
  rewrite Hck, Hq, Hh. cbn [Handlers.nonEmpty String.eqb negb orb].
  destruct (negb (Z.land opts Handlers.hasAuth =? 0));
    intros H; injection H as <-; reflexivity.
Qed.

Lemma websocket_needs_session_witness :
  handleWS plainServices
    (Handlers.mkReqCtx (Some (Handlers.mkRoom "lobby" "lobby")) "lobby"
       (Handlers.mkSess "" ""))
  = respondJSON [] Nothing (Some "invalid session")
      Handlers.StatusForbidden.
Proof.
  apply (websocket_needs_session oneSessionApp plainServices
           (Z.lor Handlers.hasAuth Handlers.hasRoom)
           (Handlers.mkRequest None "" "" "lobby")).
  - repeat split.
  - reflexivity.
Defined.

(** X24: [handleLogout] does not ask for a session: behind [wrap], a
    request without a session to an active room makes it call
    [RemoveSession] of the store with the empty session id. *)
Theorem logout_without_session_reaches_store :
  forall (app : Handlers.App) (sv : Services) (opts : Z)
         (r : Handlers.Request) (ctx : Handlers.reqCtx)
         (rm : Handlers.Room),
    anonymous r ->
    Handlers.wrap app opts r = Handlers.Next ctx ->
    Handlers.room ctx = Some rm ->
    calls (handleLogout sv ctx)
    = [RemoveSessionCall "" (Handlers.ID rm)].
Proof.
  intros app sv opts r ctx rm (Hck & Hq & Hh). unfold Handlers.wrap.
  rewrite Hck, Hq, Hh. cbn [Handlers.nonEmpty String.eqb negb orb].
  assert (Hs : forall rm0 rid,
            Handlers.room (Handlers.mkReqCtx rm0 rid (Handlers.mkSess "" ""))
            = Some rm ->
            calls (handleLogout sv
                     (Handlers.mkReqCtx rm0 rid (Handlers.mkSess "" "")))
            = [RemoveSessionCall "" (Handlers.ID rm)]).
  { intros rm0 rid. cbn [Handlers.room]. intros ->.
    unfold handleLogout. cbn [Handlers.room Handlers.session Handlers.sessID].
    destruct (negb (RemoveSession sv "" (Handlers.ID rm))); reflexivity. }
  destruct (negb (Z.land opts Handlers.hasAuth =? 0));
    intros H; injection H as <-; apply Hs.
Qed.

Lemma logout_without_session_reaches_store_witness :
  calls (handleLogout plainServices
           (Handlers.mkReqCtx (Some (Handlers.mkRoom "lobby" "lobby"))
              "lobby" (Handlers.mkSess "" "")))
  = [RemoveSessionCall "" (Handlers.ID (Handlers.mkRoom "lobby" "lobby"))].
Proof.
  apply (logout_without_session_reaches_store oneSessionApp plainServices
           (Z.lor Handlers.hasAuth Handlers.hasRoom)
           (Handlers.mkRequest None "" "" "lobby")).
  - repeat split.
  - reflexivity.
  - reflexivity.
Defined.

(** ** [handleCreateRoom] *)

Lemma ltb_or_fits a b n :
  (n <? a)%nat || (b <? n)%nat = false <-> (a <= n <= b)%nat.
Proof.
  rewrite orb_false_iff, !Nat.ltb_ge. tauto.
Qed.

(** X25: [handleCreateRoom] asks the hub for a room exactly when the
    body reads, the name is empty or of 3 to 100 bytes, the password is
    of 6 to 100 bytes and its hash is computed; the room is asked for
    without an id, under the name and the hash of the request. *)
Theorem room_is_created_iff_request_fits :
  forall (sv : Services) (req : option reqRoom) (id name : string)
         (pwdHash : list Byte.byte),
    In (AddRoomCall id name pwdHash) (calls (handleCreateRoom sv req))
    <-> exists rq,
          req = Some rq
          /\ id = "" /\ name = Name rq
          /\ nameFits (Name rq)
          /\ passwordFits (Password rq)
          /\ GenerateFromPassword sv (Password rq) = Some pwdHash.
Proof.
  intros sv req id name pwdHash. unfold handleCreateRoom, nameFits,
    passwordFits.
  destruct req as [rq|].
  2:{ split; [intros []|]. intros (rq & H & _). discriminate. }
  destruct (String.eqb_spec (Name rq) "") as [En|En]; cbn [negb andb].
  - destruct ((String.length (Password rq) <? 6)%nat
              || (100 <? String.length (Password rq))%nat) eqn:Ep.
    + split; [intros []|]. intros (rq' & H & _ & _ & _ & Hp & _).
      injection H as <-. apply ltb_or_fits in Hp. congruence.
    + apply ltb_or_fits in Ep.
      destruct (GenerateFromPassword sv (Password rq)) as [h|] eqn:Eh.
      * destruct (AddRoom sv "" (Name rq) h) as [rm|e];
          cbn [respondJSON calls In];
          (split;
           [ intros [H|[]]; injection H as <- <- <-;
             exists rq; repeat split; try assumption; try tauto; lia
           | intros (rq' & H & -> & -> & _ & _ & Hh);
             injection H as <-; left; congruence ]).
      * split; [intros []|]. intros (rq' & H & _ & _ & _ & _ & Hh).
        injection H as <-. congruence.
  - destruct ((String.length (Name rq) <? 3)%nat
              || (100 <? String.length (Name rq))%nat) eqn:Enl.
    + split; [intros []|]. intros (rq' & H & _ & _ & [Hn|Hn] & _).
      * injection H as <-. contradiction.
      * injection H as <-. apply ltb_or_fits in Hn. congruence.
    + apply ltb_or_fits in Enl.
      destruct ((String.length (Password rq) <? 6)%nat
                || (100 <? String.length (Password rq))%nat) eqn:Ep.
      * split; [intros []|]. intros (rq' & H & _ & _ & _ & Hp & _).
        injection H as <-. apply ltb_or_fits in Hp. congruence.
      * apply ltb_or_fits in Ep.
        destruct (GenerateFromPassword sv (Password rq)) as [h|] eqn:Eh.
        -- destruct (AddRoom sv "" (Name rq) h) as [rm|e];
             cbn [respondJSON calls In];
             (split;
              [ intros [H|[]]; injection H as <- <- <-;
                exists rq; repeat split; try assumption; try tauto; lia
              | intros (rq' & H & -> & -> & _ & _ & Hh);
                injection H as <-; left; congruence ]).
        -- split; [intros []|]. intros (rq' & H & _ & _ & _ & _ & Hh).
           injection H as <-. congruence.
Qed.


(** ** [handleLogin] *)

(** The calls of [handleLogin]: a room asked for because none was
    active, and a session for the room whose hash matched. *)
Lemma handleLogin_calls sv room roomID rq :
  forall c, In c (calls (handleLogin sv room roomID (Some rq))) ->
    (exists h, c = AddRoomCall roomID roomID h
               /\ room = None
               /\ GenerateFromPassword sv (Password rq) = Some h)
    \/ (exists rm sessID,
          c = AddSessionCall sessID (Handle rq) (Handlers.ID (fst rm))
          /\ CompareHashAndPassword sv (snd rm) (Password rq) = true
          /\ GenerateGUID sv = Some sessID
          /\ (room = Some rm
              \/ (room = None
                  /\ exists h,
                       GenerateFromPassword sv (Password rq) = Some h
                       /\ AddRoom sv roomID roomID h = Ok rm))).
Proof.
  intros c. unfold handleLogin. cbv zeta. walk;
    cbn [respondJSON calls List.app In];
    intros Hin; repeat destruct Hin as [Hin|Hin]; try destruct Hin;
    try (left; eexists; repeat split; eassumption);
    right; eexists _, _; (split; [reflexivity|]);
    repeat match goal with
           | H : negb _ = false |- _ => apply negb_false_iff in H
           end;
    (split; [eassumption|]); (split; [reflexivity|]);
    first [ left; reflexivity
          | right; split; [reflexivity|]; eexists; split;
            [reflexivity | eassumption] ].
Qed.

(** X26: [handleLogin] registers a session only for a password that
    was checked: every session it adds to the store is for the room
    whose hash matched the password of the request, be it the room of
    the context or the room just created, under the handle of the
    request and the generated id. *)
Theorem session_only_after_password :
  forall (sv : Services) (room : option HubRoom) (roomID : string)
         (req : option reqRoom) (sessID handle rid : string),
    In (AddSessionCall sessID handle rid)
       (calls (handleLogin sv room roomID req)) ->
    exists rq rm,
      req = Some rq
      /\ handle = Handle rq
      /\ rid = Handlers.ID (fst rm)
      /\ GenerateGUID sv = Some sessID
      /\ CompareHashAndPassword sv (snd rm) (Password rq) = true
      /\ (room = Some rm
          \/ (room = None
              /\ exists h,
                   GenerateFromPassword sv (Password rq) = Some h
                   /\ AddRoom sv roomID roomID h = Ok rm)).
Proof.
  intros sv room roomID req sessID handle rid Hin.
  destruct req as [rq|]; [|destruct Hin].
  apply handleLogin_calls in Hin.
  destruct Hin as [(h & Hc & _)|(rm & sid & Hc & Hp & Hg & Hrm)];
    [discriminate|].
  injection Hc as -> -> ->.
  exists rq, rm. repeat split; assumption.
Qed.

Lemma session_only_after_password_witness :
  exists rq rm,
    Some (mkReqRoom "" "ann" "pw") = Some rq
    /\ "ann" = Handle rq
    /\ "lobby" = Handlers.ID (fst rm)
    /\ GenerateGUID plainServices = Some "s1"
    /\ CompareHashAndPassword plainServices (snd rm) (Password rq) = true
    /\ (@None HubRoom = Some rm
        \/ (@None HubRoom = None
            /\ exists h,
                 GenerateFromPassword plainServices (Password rq) = Some h
                 /\ AddRoom plainServices "lobby" "lobby" h = Ok rm)).
Proof.
  apply (session_only_after_password plainServices None "lobby"
           (Some (mkReqRoom "" "ann" "pw")) "s1" "ann" "lobby").
  vm_compute. right. left. reflexivity.
Defined.

(** X27: a login to a room that is not there creates it with whatever
    password the request carries: a password that [handleCreateRoom]
    refuses as too short or too long is accepted by [handleLogin] for
    a new room. *)
Theorem login_creates_room_with_any_password :
  forall (sv : Services) (roomID : string) (rq : reqRoom)
         (pwdHash : list Byte.byte),
    ~ passwordFits (Password rq) ->
    GenerateFromPassword sv (Password rq) = Some pwdHash ->
    calls (handleCreateRoom sv (Some rq)) = []
    /\ hd_error (calls (handleLogin sv None roomID (Some rq)))
       = Some (AddRoomCall roomID roomID pwdHash).
Proof.
  intros sv roomID rq pwdHash Hfit Hh. split.
  - unfold handleCreateRoom.
    destruct (negb (String.eqb (Name rq) "")
              && ((String.length (Name rq) <? 3)%nat
                  || (100 <? String.length (Name rq))%nat));
      [reflexivity|].
    destruct ((String.length (Password rq) <? 6)%nat
              || (100 <? String.length (Password rq))%nat) eqn:Ep;
      [reflexivity|].
    apply ltb_or_fits in Ep. contradiction.
  - unfold handleLogin. rewrite Hh. cbv zeta. walk; reflexivity.
Qed.

Lemma login_creates_room_with_any_password_witness :
  calls (handleCreateRoom plainServices (Some (mkReqRoom "" "ann" "pw")))
  = []
  /\ hd_error (calls (handleLogin plainServices None "lobby"
                        (Some (mkReqRoom "" "ann" "pw"))))
     = Some (AddRoomCall "lobby" "lobby" (list_byte_of_string "pw")).
Proof.
  apply (login_creates_room_with_any_password plainServices "lobby"
           (mkReqRoom "" "ann" "pw") (list_byte_of_string "pw")).
  - unfold passwordFits. cbn. lia.
  - reflexivity.
Defined.

(** X28: the session cookie [handleLogin] sets carries the id of the
    session it has just registered: the store accepted that id, the
    reply is a 200 with the same id as data, and the cookie has the
    configured name and no MaxAge. *)
Theorem login_cookie_is_registered_session :
  forall (sv : Services) (room : option HubRoom) (roomID : string)
         (req : option reqRoom) (rp : reply) (c : Cookie),
    response (handleLogin sv room roomID req) = Some rp ->
    setCookie rp = Some c ->
    cookieName c = SessionCookie sv
    /\ MaxAge c = 0
    /\ status rp = StatusOK
    /\ error rp = None
    /\ data rp = SessionOf (SessionCookie sv) (cookieValue c)
    /\ exists handle rid,
         In (AddSessionCall (cookieValue c) handle rid)
            (calls (handleLogin sv room roomID req))
         /\ AddSession sv (cookieValue c) handle rid = true.
Proof.
  intros sv room roomID req rp c. unfold handleLogin. cbv zeta.
  walk; leaf; intros Hc; try discriminate Hc; injection Hc as <-;
    cbn [cookieName cookieValue MaxAge]; repeat split;
    eexists _, _;
    (split;
     [ apply in_or_app; right; left; reflexivity
     | apply negb_false_iff; eassumption ]).
Qed.

Lemma login_cookie_is_registered_session_witness :
  cookieName (mkCookie "sess" "s1" 0) = SessionCookie plainServices
  /\ MaxAge (mkCookie "sess" "s1" 0) = 0
  /\ status (mkReply 200 (SessionOf "sess" "s1") None
               (Some (mkCookie "sess" "s1" 0))) = StatusOK
  /\ error (mkReply 200 (SessionOf "sess" "s1") None
              (Some (mkCookie "sess" "s1" 0))) = None
  /\ data (mkReply 200 (SessionOf "sess" "s1") None
             (Some (mkCookie "sess" "s1" 0)))
     = SessionOf (SessionCookie plainServices)
         (cookieValue (mkCookie "sess" "s1" 0))
  /\ exists handle rid,
       In (AddSessionCall (cookieValue (mkCookie "sess" "s1" 0)) handle rid)
          (calls (handleLogin plainServices None "lobby"
                    (Some (mkReqRoom "" "ann" "secret"))))
       /\ AddSession plainServices (cookieValue (mkCookie "sess" "s1" 0))
            handle rid = true.
Proof.
  apply (login_cookie_is_registered_session plainServices None "lobby"
           (Some (mkReqRoom "" "ann" "secret"))
           (mkReply 200 (SessionOf "sess" "s1") None
              (Some (mkCookie "sess" "s1" 0)))
           (mkCookie "sess" "s1" 0)).
  - vm_compute. reflexivity.
  - reflexivity.
Defined.

(** ** The replies of the four handlers *)

(** X29: in a reply of the handlers of rooms and sessions, the error
    is absent exactly on a 200 and on the 500 for a password that
    could not be hashed, which carries its message as data. *)
Theorem reply_without_error :
  forall (sv : Services) (out : outcome) (rp : reply),
    handled sv out ->
    response out = Some rp ->
    (error rp = None
     <-> status rp = StatusOK
         \/ (status rp = StatusInternalServerError
             /\ data rp = Text "Error hashing password")).
Proof.
  intros sv out rp Hh.
  destruct Hh as [room roomID req|ctx|ctx|req];
    unfold handleLogin, handleLogout, handleWS, handleCreateRoom;
    cbv zeta; walk; leaf;
    (split;
     [ first [ discriminate
             | intros _; left; reflexivity
             | intros _; right; split; reflexivity ]
     | first [ reflexivity | intros [H|[H1 H2]]; discriminate ] ]).
Qed.

Lemma reply_without_error_witness :
  error (mkReply 200 (Created "fresh") None None) = None
  <-> status (mkReply 200 (Created "fresh") None None) = StatusOK
      \/ (status (mkReply 200 (Created "fresh") None None)
          = StatusInternalServerError
          /\ data (mkReply 200 (Created "fresh") None None)
             = Text "Error hashing password").
Proof.
  apply (reply_without_error plainServices
           (handleCreateRoom plainServices
              (Some (mkReqRoom "den" "ann" "secret")))).
  - apply byCreateRoom.
  - vm_compute. reflexivity.
Defined.

End RoomExtras.
